(** * Bieterrunde: the event-sourced store of the server package

    Shallow embedding of the events of [server] (constructors, [validate],
    [execute], [Name], [getEvent]) over the in-memory [Database], together
    with the write path and the startup replay of the store, and the
    properties the specification states about them. *)

From Stdlib Require Import ZArith String List Lia.
From Stdlib.Strings Require Import Byte.
From stdpp Require Import base option gmap strings pretty.

Local Open Scope Z_scope.
Local Open Scope string_scope.

(** ** Values shared by all events *)

(** [json.RawMessage] is a byte slice; the [nil] slice is [None]. *)
Definition RawMessage : Type := option (list Byte.byte).

(** [type validationError struct { msg string }] *)
Record validationError : Type := { msg : string }.

(** A Go [error] value: [nil] or, in this package, a [validationError]. *)
Definition error : Type := option validationError.

Definition Error (e : validationError) : string := msg e.

Definition forClient (e : validationError) : string :=
  "Ungültige Daten: " ++ msg e.

Definition errIDExists : validationError :=
  {| msg := "Bieter ID existiert bereits" |}.

Definition lowestOffer : Z := 4000.

(** [ServiceState] is an integer type; any integer can be stored in it. *)
Definition ServiceState : Type := Z.

(** Modelled from the spec: the declaration of the [ServiceState] constants
    is not among the sources; the phases are Registration=1, Offer=2,
    Closed=3. *)
Definition stateRegistration : ServiceState := 1.
Definition stateOffer : ServiceState := 2.
Definition stateClosed : ServiceState := 3.

(** The fields of [Database] that the events read and write:
    [bieter map[string]json.RawMessage], [offer map[string]int] and
    [state ServiceState]. *)
Record Database : Type := {
  bieter : gmap string RawMessage;
  offer : gmap string Z;
  state : ServiceState
}.

(** The comma-ok form [_, exist := m[k]]. *)
Definition exist {V : Type} (m : gmap string V) (k : string) : bool :=
  match m !! k with
  | Some _ => true
  | None => false
  end.

(** Functions of the Go library (and the [String] method of [ServiceState],
    which is declared outside the event file) that the events only call:
    [json.Valid], and the verbs [%q] and [%d] of [fmt.Sprintf]. *)
Class GoLib : Type := {
  json_Valid : list Byte.byte -> bool;
  fmt_q : string -> string;
  fmt_q_int : Z -> string;
  fmt_d : Z -> string;
  ServiceState_String : ServiceState -> string
}.

(** ** eventUpdate *)

Module eventUpdate.

Record t : Type := {
  ID : string;
  Payload : RawMessage;
  create : bool;
  asAdmin : bool
}.

(** The zero value [eventUpdate{}]. *)
Definition zero : t :=
  {| ID := ""; Payload := None; create := false; asAdmin := false |}.

Definition Name (e : t) : string := "update".

Section methods.
Context `{GoLib}.

Definition String (e : t) : string :=
  "Updating bieter " ++ fmt_q (ID e) ++ " to payload "
    ++ fmt_q (match Payload e with
              | Some bs => string_of_list_byte bs
              | None => ""
              end).

Definition validate (e : t) (db : Database) : error * Database :=
  if negb (asAdmin e) && negb (state db =? stateRegistration)%Z
  then (Some {| msg := "invalid state" |}, db)
  else
    let exist := exist (bieter db) (ID e) in
    if create e then
      if exist then (Some errIDExists, db) else (None, db)
    else
      if negb exist
      then (Some {| msg := "Bieter " ++ fmt_q (ID e) ++ " does not exist" |}, db)
      else (None, db).

Definition execute (e : t) (db : Database) : error * Database :=
  (None, {| bieter := <[ID e := Payload e]> (bieter db);
            offer := offer db;
            state := state db |}).

End methods.

End eventUpdate.

(** ** eventDelete *)

Module eventDelete.

Record t : Type := {
  ID : string;
  asAdmin : bool
}.

Definition zero : t := {| ID := ""; asAdmin := false |}.

Definition Name (e : t) : string := "delete".

Section methods.
Context `{GoLib}.

Definition String (e : t) : string := "Deleting bieter " ++ fmt_q (ID e).

Definition validate (e : t) (db : Database) : error * Database :=
  if negb (asAdmin e) && negb (state db =? stateRegistration)%Z
  then (Some {| msg := "invalid state" |}, db)
  else (None, db).

Definition execute (e : t) (db : Database) : error * Database :=
  (None, {| bieter := delete (ID e) (bieter db);
            offer := offer db;
            state := state db |}).

End methods.

End eventDelete.

(** ** eventServiceState *)

Module eventServiceState.

Record t : Type := { NewState : ServiceState }.

Definition zero : t := {| NewState := 0 |}.

Definition Name (e : t) : string := "state".

Section methods.
Context `{GoLib}.

Definition String (e : t) : string :=
  "Set state to " ++ fmt_q (ServiceState_String (NewState e)).

Definition validate (e : t) (db : Database) : error * Database :=
  (None, db).

Definition execute (e : t) (db : Database) : error * Database :=
  (None, {| bieter := bieter db;
            offer := offer db;
            state := NewState e |}).

End methods.

End eventServiceState.

(** ** eventOffer *)

Module eventOffer.

Record t : Type := {
  ID : string;
  Offer : Z;
  asAdmin : bool
}.

Definition zero : t := {| ID := ""; Offer := 0; asAdmin := false |}.

Definition Name (e : t) : string := "offer".

Section methods.
Context `{GoLib}.

Definition String (e : t) : string :=
  "Set offer of bieter " ++ fmt_q (ID e) ++ " to " ++ fmt_d (Offer e).

Definition validate (e : t) (db : Database) : error * Database :=
  if negb (asAdmin e) && negb (state db =? stateOffer)%Z
  then (Some {| msg := "invalid state" |}, db)
  else
    if negb (exist (bieter db) (ID e))
    then (Some {| msg := "Bieter " ++ fmt_q (ID e) ++ " does not exist" |}, db)
    else (None, db).

Definition execute (e : t) (db : Database) : error * Database :=
  (None, {| bieter := bieter db;
            offer := <[ID e := Offer e]> (offer db);
            state := state db |}).

End methods.

End eventOffer.

(** ** eventOfferClear *)

Module eventOfferClear.

Record t : Type := {}.

Definition zero : t := Build_t.

Definition Name (e : t) : string := "offer-clear".

Definition String (e : t) : string := "Clear all offers".

Definition validate (e : t) (db : Database) : error * Database :=
  (None, db).

Definition execute (e : t) (db : Database) : error * Database :=
  (None, {| bieter := bieter db;
            offer := ∅;
            state := state db |}).

End eventOfferClear.

(** ** Constructors *)

Section constructors.
Context `{GoLib}.

Definition newEventUpdate (id : string) (payload : RawMessage) (asAdmin : bool)
  : eventUpdate.t * error :=
  match payload with
  | None => (eventUpdate.zero, Some {| msg := "Keine Daten übergeben" |})
  | Some bs =>
      if negb (json_Valid bs)
      then (eventUpdate.zero, Some {| msg := "Ungültige Daten übergeben" |})
      else ({| eventUpdate.ID := id;
               eventUpdate.Payload := payload;
               eventUpdate.create := false;
               eventUpdate.asAdmin := asAdmin |}, None)
  end.

Definition newEventCreate (id : string) (payload : RawMessage) (asAdmin : bool)
  : eventUpdate.t * error :=
  let '(e, err) := newEventUpdate id payload asAdmin in
  ({| eventUpdate.ID := eventUpdate.ID e;
      eventUpdate.Payload := eventUpdate.Payload e;
      eventUpdate.create := true;
      eventUpdate.asAdmin := eventUpdate.asAdmin e |}, err).

Definition newEventDelete (id : string) (asAdmin : bool) : eventDelete.t :=
  {| eventDelete.ID := id; eventDelete.asAdmin := asAdmin |}.

Definition newEventStatus (newState : ServiceState)
  : eventServiceState.t * error :=
  if (newState <? 1)%Z || (newState >? 3)%Z
  then (eventServiceState.zero,
        Some {| msg := "Ungültiger State mit nummer "
                       ++ fmt_q (ServiceState_String newState) |})
  else ({| eventServiceState.NewState := newState |}, None).

Definition newEventOffer (id : string) (offer : Z) (asAdmin : bool)
  : eventOffer.t * error :=
  if (offer <? lowestOffer)%Z
  then (eventOffer.zero,
        Some {| msg := "Das Gebot muss mindestens " ++ fmt_d lowestOffer
                       ++ " sein, nicht " ++ fmt_q_int offer |})
  else ({| eventOffer.ID := id;
           eventOffer.Offer := offer;
           eventOffer.asAdmin := asAdmin |}, None).

Definition newEventOfferClear : eventOfferClear.t := eventOfferClear.zero.

End constructors.

(** ** The Event interface *)

(** A value of the interface [Event]: one of the five implementing structs. *)
Inductive Event : Type :=
| EvUpdate (e : eventUpdate.t)
| EvDelete (e : eventDelete.t)
| EvServiceState (e : eventServiceState.t)
| EvOffer (e : eventOffer.t)
| EvOfferClear (e : eventOfferClear.t).

Definition Name (e : Event) : string :=
  match e with
  | EvUpdate u => eventUpdate.Name u
  | EvDelete d => eventDelete.Name d
  | EvServiceState s => eventServiceState.Name s
  | EvOffer o => eventOffer.Name o
  | EvOfferClear c => eventOfferClear.Name c
  end.

(** [getEvent]; the [nil] interface value is [None]. *)
Definition getEvent (eventType : string) : option Event :=
  if String.eqb eventType "update" then Some (EvUpdate eventUpdate.zero)
  else if String.eqb eventType "delete" then Some (EvDelete eventDelete.zero)
  else if String.eqb eventType "state"
       then Some (EvServiceState eventServiceState.zero)
  else if String.eqb eventType "offer" then Some (EvOffer eventOffer.zero)
  else if String.eqb eventType "offer-clear"
       then Some (EvOfferClear eventOfferClear.zero)
  else None.

Section dispatch.
Context `{GoLib}.

Definition validate (e : Event) (db : Database) : error * Database :=
  match e with
  | EvUpdate u => eventUpdate.validate u db
  | EvDelete d => eventDelete.validate d db
  | EvServiceState s => eventServiceState.validate s db
  | EvOffer o => eventOffer.validate o db
  | EvOfferClear c => eventOfferClear.validate c db
  end.

Definition execute (e : Event) (db : Database) : error * Database :=
  match e with
  | EvUpdate u => eventUpdate.execute u db
  | EvDelete d => eventDelete.execute d db
  | EvServiceState s => eventServiceState.execute s db
  | EvOffer o => eventOffer.execute o db
  | EvOfferClear c => eventOfferClear.execute c db
  end.

End dispatch.

(** ** Error responses of the HTTP layer *)

(** [type clientError struct { msg string; status int }] and its methods. *)
Module clientError.

Record t : Type := {
  msg : string;
  status : Z
}.

Definition Error (err : t) : string := "client error: " ++ msg err.

Definition forClient (err : t) : string := msg err.

Definition httpStatus (err : t) : Z :=
  if (status err =? 0)%Z then 400%Z else status err.

End clientError.

(** The non-nil error values that reach [handleError]: the two error types
    of the package, an error that wraps another one ([fmt.Errorf] with
    [%w], or a library error with an [Unwrap] method), and any other error.
    Only the first two have the methods [handleError] looks for. *)
Inductive goerror : Type :=
| errValidation (e : validationError)
| errClient (e : clientError.t)
| errWrap (prefix : string) (inner : goerror)
| errOther (text : string).

Fixpoint goerror_Error (err : goerror) : string :=
  match err with
  | errValidation e => Error e
  | errClient e => clientError.Error e
  | errWrap prefix inner => prefix ++ goerror_Error inner
  | errOther text => text
  end.

(** The method [forClient() string], where the dynamic type has it. *)
Definition forClient_method (err : goerror) : option string :=
  match err with
  | errValidation e => Some (forClient e)
  | errClient e => Some (clientError.forClient e)
  | _ => None
  end.

(** The method [httpStatus() int], where the dynamic type has it. *)
Definition httpStatus_method (err : goerror) : option Z :=
  match err with
  | errClient e => Some (clientError.httpStatus e)
  | _ => None
  end.

(** [errors.As] for an interface target: the first error of the chain whose
    type has the method, unwrapping as long as there is an [Unwrap]. *)
Fixpoint errors_As {A : Type} (method : goerror -> option A) (err : goerror)
  : option A :=
  match method err with
  | Some found => Some found
  | None =>
      match err with
      | errWrap _ inner => errors_As method inner
      | _ => None
      end
  end.

(** [handleError]: the message and the status code it passes to
    [http.Error]. The error is also written to the server log, always
    ([skipLog] is never set); the log is not part of the model. *)
Definition handleError (err : goerror) : string * Z :=
  let msg := "Interner Fehler" in
  let status := 500%Z in
  let '(msg, status) :=
    match errors_As forClient_method err with
    | Some text => (text, 400%Z)
    | None => (msg, status)
    end in
  let status :=
    match errors_As httpStatus_method err with
    | Some code => code
    | None => status
    end in
  (msg, status).

(** An error wrapped several times, outermost prefix first, as the handlers
    and the layers below them do with [fmt.Errorf] and [%w]. *)
Definition wrapAll (prefixes : list string) (err : goerror) : goerror :=
  foldr errWrap err prefixes.

(** ** Readers of the database *)

(** Modelled from the spec: the readers of [Database] ([Bieter], [Offer],
    [State], called by the HTTP handlers) are not among the sources. They
    are pure reads: [Get(id) -> (payload, found)], [Offer(id) -> amount],
    0 if absent, and [Phase() -> phase]. *)
Definition Bieter (db : Database) (id : string) : RawMessage * bool :=
  match bieter db !! id with
  | Some p => (p, true)
  | None => (None, false)
  end.

Definition Offer (db : Database) (id : string) : Z :=
  match offer db !! id with
  | Some a => a
  | None => 0
  end.

Definition State (db : Database) : ServiceState := state db.

(** Modelled from the spec: the constructor of [Database] is not among the
    sources. An empty or nonexistent log yields a store in initial state:
    empty members, empty offers, phase = Registration. *)
Definition emptyDatabase : Database :=
  {| bieter := ∅; offer := ∅; state := stateRegistration |}.

(** ** JSON encoding of the logged values *)

Definition byteZ (b : Byte.byte) : Z := Z.of_N (Byte.to_N b).

Definition between (lo hi : Z) (b : Byte.byte) : bool :=
  (lo <=? byteZ b)%Z && (byteZ b <=? hi)%Z.

(** The replacement rune U+FFFD in UTF-8. *)
Definition replacementRune : list Byte.byte := [xef; xbf; xbd].

(** Go library: [encoding/json] writes a string coerced to valid UTF-8:
    going through the bytes with [utf8.DecodeRune], every byte that does
    not start a well-formed sequence is written as U+FFFD, and reading the
    JSON string back gives the string so coerced. Well-formed are: 00..7F;
    C2..DF with one continuation byte; E0..EF with two and F0..F4 with
    three, the first of them in A0..BF after E0, 80..9F after ED, 90..BF
    after F0 and 80..8F after F4, every other one in 80..BF. *)
Fixpoint coerceUTF8 (bs : list Byte.byte) : list Byte.byte :=
  match bs with
  | [] => []
  | b :: rest =>
      let invalid := (replacementRune ++ coerceUTF8 rest)%list in
      if between 0x00 0x7f b then b :: coerceUTF8 rest
      else if between 0xc2 0xdf b then
        match rest with
        | b1 :: rest1 =>
            if between 0x80 0xbf b1 then b :: b1 :: coerceUTF8 rest1
            else invalid
        | _ => invalid
        end
      else if between 0xe0 0xef b then
        let lo := if between 0xe0 0xe0 b then 0xa0%Z else 0x80%Z in
        let hi := if between 0xed 0xed b then 0x9f%Z else 0xbf%Z in
        match rest with
        | b1 :: b2 :: rest2 =>
            if between lo hi b1 && between 0x80 0xbf b2
            then b :: b1 :: b2 :: coerceUTF8 rest2
            else invalid
        | _ => invalid
        end
      else if between 0xf0 0xf4 b then
        let lo := if between 0xf0 0xf0 b then 0x90%Z else 0x80%Z in
        let hi := if between 0xf4 0xf4 b then 0x8f%Z else 0xbf%Z in
        match rest with
        | b1 :: b2 :: b3 :: rest3 =>
            if between lo hi b1 && between 0x80 0xbf b2 && between 0x80 0xbf b3
            then b :: b1 :: b2 :: b3 :: coerceUTF8 rest3
            else invalid
        | _ => invalid
        end
      else invalid
  end.

(** A Go string after it was written as a JSON string and read back. *)
Definition toValidUTF8 (s : string) : string :=
  string_of_list_byte (coerceUTF8 (list_byte_of_string s)).

(** A backslash, [u] and four hexadecimal digits, as the encoder writes a
    rune it escapes. *)
Definition escapeRune (d1 d2 d3 d4 : Byte.byte) : list Byte.byte :=
  [x5c; x75; d1; d2; d3; d4].

(** Go library: what [encoding/json] writes for a [json.RawMessage] that is
    valid JSON ([appendCompact] with [escapeHTML] set, the default of
    [json.Marshal]): white space (space, tab, line feed, carriage return)
    outside string literals is dropped; the bytes 3C, 3E and 26 (less-than,
    greater-than, ampersand) are written as the escapes u003c, u003e and
    u0026; the runes U+2028 and U+2029 (bytes E2 80 A8 and E2 80 A9) as the
    escapes u2028 and u2029; every other byte is copied. [inString] and
    [escaped] follow the string literals of the text. *)
Fixpoint compactFrom (inString escaped : bool) (src : list Byte.byte)
  : list Byte.byte :=
  match src with
  | [] => []
  | c :: rest =>
      let one :=
        if Byte.eqb c x3c
        then (escapeRune x30 x30 x33 x63
              ++ compactFrom inString false rest)%list
        else if Byte.eqb c x3e
        then (escapeRune x30 x30 x33 x65
              ++ compactFrom inString false rest)%list
        else if Byte.eqb c x26
        then (escapeRune x30 x30 x32 x36
              ++ compactFrom inString false rest)%list
        else if inString then
          if escaped then c :: compactFrom true false rest
          else if Byte.eqb c x5c then c :: compactFrom true true rest
          else if Byte.eqb c x22 then c :: compactFrom false false rest
          else c :: compactFrom true false rest
        else
          if Byte.eqb c x22 then c :: compactFrom true false rest
          else if Byte.eqb c x20 || Byte.eqb c x09
                  || Byte.eqb c x0a || Byte.eqb c x0d
          then compactFrom false false rest
          else c :: compactFrom false false rest in
      match rest with
      | b1 :: b2 :: rest2 =>
          if Byte.eqb c xe2 && Byte.eqb b1 x80
             && (Byte.eqb b2 xa8 || Byte.eqb b2 xa9)
          then (escapeRune x32 x30 x32 (if Byte.eqb b2 xa8 then x38 else x39)
                ++ compactFrom inString false rest2)%list
          else one
      | _ => one
      end
  end.

Definition compact (src : list Byte.byte) : list Byte.byte :=
  compactFrom false false src.

(** The bytes written for a payload: a [nil] [json.RawMessage] is written
    as [null], any other one compacted. *)
Definition wireBytes (p : RawMessage) : list Byte.byte :=
  match p with
  | None => list_byte_of_string "null"
  | Some bs => compact bs
  end.

(** The payload read back from those bytes: [json.RawMessage] takes the
    bytes of the value as they stand in the record, and is never [nil]. *)
Definition wire (p : RawMessage) : RawMessage := Some (wireBytes p).

(** The values of Go's [int] (64 bits). *)
Definition goInt (z : Z) : bool :=
  (- 2 ^ 63 <=? z)%Z && (z <? 2 ^ 63)%Z.

(** ** Event log *)

(** Modelled from the spec: the codec of the Event Log is not among the
    sources. A record carries the event-type tag and the encoded payload
    of the event. The encoded payload is the JSON object of the exported
    fields of the event struct, under the keys of their struct tags ([id],
    [payload], [state], [offer]); the unexported fields [create] and
    [asAdmin] are not part of it. [Fields] is that object as it is read
    from the log: the string under [id], the bytes of the value under
    [payload], the numbers under [state] and [offer]. *)
Record Fields : Type := {
  f_id : option string;
  f_payload : option (list Byte.byte);
  f_state : option Z;
  f_offer : option Z
}.

(** Modelled from the spec: one record of the Event Log, the event-type tag
    and the encoded payload. *)
Record LogRecord : Type := {
  rec_type : string;
  rec_payload : Fields
}.

Section encoding.
Context `{GoLib}.

(** Modelled from the spec: encoding of the payload of a record, with
    [encoding/json] as the struct tags of the events say. A string is
    written coerced to valid UTF-8, a [json.RawMessage] compacted (a [nil]
    one as [null]), an integer as it is. The encoder fails on a
    [json.RawMessage] that is not [nil] and not valid JSON: [None]. *)
Definition marshal (e : Event) : option Fields :=
  match e with
  | EvUpdate u =>
      let valid :=
        match eventUpdate.Payload u with
        | Some bs => json_Valid bs
        | None => true
        end in
      if valid
      then Some {| f_id := Some (toValidUTF8 (eventUpdate.ID u));
                   f_payload := Some (wireBytes (eventUpdate.Payload u));
                   f_state := None; f_offer := None |}
      else None
  | EvDelete d =>
      Some {| f_id := Some (toValidUTF8 (eventDelete.ID d));
              f_payload := None; f_state := None; f_offer := None |}
  | EvServiceState s =>
      Some {| f_id := None; f_payload := None;
              f_state := Some (eventServiceState.NewState s);
              f_offer := None |}
  | EvOffer o =>
      Some {| f_id := Some (toValidUTF8 (eventOffer.ID o));
              f_payload := None; f_state := None;
              f_offer := Some (eventOffer.Offer o) |}
  | EvOfferClear _ =>
      Some {| f_id := None; f_payload := None;
              f_state := None; f_offer := None |}
  end.

(** Modelled from the spec: the encoded form of an event, its type tag and
    its encoded payload; [None] when the encoder fails. *)
Definition encode (e : Event) : option LogRecord :=
  match marshal e with
  | Some f => Some {| rec_type := Name e; rec_payload := f |}
  | None => None
  end.

End encoding.

(** Modelled from the spec: decoding of the payload of a record into an
    event value, with [encoding/json]: the exported fields whose key is
    present are set and every other field is left as it is. A
    [json.RawMessage] takes the bytes of its value; a number that is not a
    value of [int] is refused: [None]. *)
Definition unmarshal (f : Fields) (e : Event) : option Event :=
  match e with
  | EvUpdate u =>
      Some (EvUpdate
              {| eventUpdate.ID := default (eventUpdate.ID u) (f_id f);
                 eventUpdate.Payload :=
                   match f_payload f with
                   | Some raw => Some raw
                   | None => eventUpdate.Payload u
                   end;
                 eventUpdate.create := eventUpdate.create u;
                 eventUpdate.asAdmin := eventUpdate.asAdmin u |})
  | EvDelete d =>
      Some (EvDelete
              {| eventDelete.ID := default (eventDelete.ID d) (f_id f);
                 eventDelete.asAdmin := eventDelete.asAdmin d |})
  | EvServiceState s =>
      let v := default (eventServiceState.NewState s) (f_state f) in
      if goInt v
      then Some (EvServiceState {| eventServiceState.NewState := v |})
      else None
  | EvOffer o =>
      let amount := default (eventOffer.Offer o) (f_offer f) in
      if goInt amount
      then Some (EvOffer
                   {| eventOffer.ID := default (eventOffer.ID o) (f_id f);
                      eventOffer.Offer := amount;
                      eventOffer.asAdmin := eventOffer.asAdmin o |})
      else None
  | EvOfferClear c => Some (EvOfferClear c)
  end.

(** Modelled from the spec: resolve the event implementation by type tag,
    then decode the payload into it. *)
Definition decode (r : LogRecord) : option Event :=
  match getEvent (rec_type r) with
  | Some e => unmarshal (rec_payload r) e
  | None => None
  end.

(** ** Store: write path and replay *)

(** Modelled from the spec: the write path and the startup replay of the
    store are not among the sources. The store is the in-memory database
    together with its append-only log. *)
Record Store : Type := {
  db : Database;
  eventLog : list LogRecord
}.

(** Modelled from the spec: the store before any event, with an empty
    log. *)
Definition newStore : Store := {| db := emptyDatabase; eventLog := [] |}.

(** Modelled from the spec: why a startup fails: an unrecognized type tag,
    a payload that does not decode, or an event that fails to execute. *)
Inductive startupError : Type :=
| errNoSuchEvent (tag : string)
| errDecode (tag : string)
| errExecute (err : validationError).

(** Modelled from the spec: the internal error of a write whose event could
    not be encoded for the log; its text is not part of the model. *)
Definition errEncode : goerror := errOther "encoding event".

Section store.
Context `{GoLib}.

(** Modelled from the spec: Apply algorithm for any event [e]: call
    [e.validate(store)]; if it fails, return the validation error
    untouched (no log write); otherwise append the event's encoded form
    to the Event Log, call [e.execute(store)], return success. If the log
    append itself fails, the operation fails and the in-memory state is not
    mutated: here when the event cannot be encoded; the write to the file
    is taken to succeed, and the lock is not modelled. *)
Definition Apply (e : Event) (s : Store) : option goerror * Store :=
  match validate e (db s) with
  | (Some err, d) =>
      (Some (errValidation err), {| db := d; eventLog := eventLog s |})
  | (None, d) =>
      match encode e with
      | None => (Some errEncode, {| db := d; eventLog := eventLog s |})
      | Some r =>
          let log := (eventLog s ++ [r])%list in
          match execute e d with
          | (Some err, d') =>
              (Some (errValidation err), {| db := d'; eventLog := log |})
          | (None, d') => (None, {| db := d'; eventLog := log |})
          end
      end
  end.

(** Modelled from the spec: applying a sequence of events one after the
    other; an event that is refused leaves the store as it is and the
    sequence goes on. *)
Fixpoint ApplyAll (es : list Event) (s : Store) : Store :=
  match es with
  | [] => s
  | e :: es' => ApplyAll es' (snd (Apply e s))
  end.

(** Modelled from the spec: the events of a sequence that the store
    accepts, in order. *)
Fixpoint accepted (es : list Event) (s : Store) : list Event :=
  match es with
  | [] => []
  | e :: es' =>
      match Apply e s with
      | (None, s') => e :: accepted es' s'
      | (Some _, s') => accepted es' s'
      end
  end.

End store.

(** Modelled from the spec: replay at startup: for each record, resolve the
    event implementation by type tag; if the tag is unrecognized, fail the
    whole startup; decode the payload into it; call [execute] directly
    (skip [validate]) to rebuild the state. *)
Fixpoint replay (log : list LogRecord) (d : Database)
  : startupError + Database :=
  match log with
  | [] => inr d
  | r :: log' =>
      match getEvent (rec_type r) with
      | None => inl (errNoSuchEvent (rec_type r))
      | Some blank =>
          match unmarshal (rec_payload r) blank with
          | None => inl (errDecode (rec_type r))
          | Some e =>
              match execute e d with
              | (Some err, _) => inl (errExecute err)
              | (None, d') => replay log' d'
              end
          end
      end
  end.

(** Modelled from the spec: startup, the replay of the log from the initial
    state. *)
Definition startup (log : list LogRecord) : startupError + Database :=
  replay log emptyDatabase.

(** The database as a replay rebuilds it: every payload in the form it has
    in the log, offers and phase as they are. *)
Definition asReplayed (d : Database) : Database :=
  {| bieter := wire <$> bieter d; offer := offer d; state := state d |}.

(** An event whose strings and integers are read back from the log as they
    were written: IDs that are valid UTF-8, integers that are values of
    [int]. *)
Definition wireSafe (e : Event) : Prop :=
  match e with
  | EvUpdate u => toValidUTF8 (eventUpdate.ID u) = eventUpdate.ID u
  | EvDelete x => toValidUTF8 (eventDelete.ID x) = eventDelete.ID x
  | EvServiceState s => goInt (eventServiceState.NewState s) = true
  | EvOffer o =>
      toValidUTF8 (eventOffer.ID o) = eventOffer.ID o /\
      goInt (eventOffer.Offer o) = true
  | EvOfferClear _ => True
  end.

(** ** An instance of the library functions *)

(** The properties below hold for every [GoLib]. To run the definitions on
    concrete stores the library functions are instantiated here:
    [json_Valid] recognises a few JSON texts only, and the formatting verbs
    are simplified. *)
Definition sample_json_Valid (bs : list Byte.byte) : bool :=
  let s := string_of_list_byte bs in
  String.eqb s "null" || String.eqb s "true" || String.eqb s "{}"
  || String.eqb s "[]" || String.eqb s "[1, 2]" || String.eqb s "[1,2]".

Definition sample_quote (s : string) : string := "'" ++ s ++ "'".

Definition sample_state_name (s : ServiceState) : string :=
  if (s =? 1)%Z then "Registration"
  else if (s =? 2)%Z then "Offer"
  else if (s =? 3)%Z then "Closed"
  else "Unknown".

Definition sampleLib : GoLib :=
  {| json_Valid := sample_json_Valid;
     fmt_q := sample_quote;
     fmt_q_int := fun z => sample_quote (pretty z);
     fmt_d := fun z => pretty z;
     ServiceState_String := sample_state_name |}.

(** Stores and payloads used to run the definitions. *)
Definition bytes (s : string) : RawMessage := Some (list_byte_of_string s).

Definition sampleDatabase (phase : ServiceState) : Database :=
  {| bieter := {[ "17" := bytes "{}" ]};
     offer := {[ "17" := 5000%Z ]};
     state := phase |}.

(** ** Events built by the constructors, and what they keep *)

(** An event value as one of the constructors returns it without an error.
    [newEventUpdate] and [newEventCreate] build an [eventUpdate],
    [newEventStatus] an [eventServiceState], [newEventOffer] an
    [eventOffer]; [newEventDelete] and [newEventOfferClear] cannot fail. *)
Definition built `{GoLib} (e : Event) : Prop :=
  match e with
  | EvUpdate u =>
      exists id p a, newEventUpdate id p a = (u, None) \/
                     newEventCreate id p a = (u, None)
  | EvDelete x => exists id a, newEventDelete id a = x
  | EvServiceState s => exists v, newEventStatus v = (s, None)
  | EvOffer o => exists id amount a, newEventOffer id amount a = (o, None)
  | EvOfferClear c => c = newEventOfferClear
  end.

(** Every stored offer is at least [lowestOffer]. *)
Definition offersAboveMinimum (d : Database) : Prop :=
  forall (k : string) (amount : Z),
    offer d !! k = Some amount -> (lowestOffer <= amount)%Z.

(** The phase is one of the three values [newEventStatus] lets through. *)
Definition phaseInRange (d : Database) : Prop := (1 <= state d <= 3)%Z.

(** Every stored payload is a non-nil slice that [json.Valid] accepts. *)
Definition payloadsValid `{GoLib} (d : Database) : Prop :=
  forall (k : string) (p : RawMessage),
    bieter d !! k = Some p -> exists bs, p = Some bs /\ json_Valid bs = true.

(** ** Admin check *)

(** The field of [Config] that [isAdmin] reads. *)
Record Config : Type := { AdminPW : string }.

(** Request headers under their canonical keys, each with its values. *)
Definition Header : Type := gmap string (list string).

(** [Header.Get]: the first value of the key, or the empty string. *)
Definition Header_Get (h : Header) (key : string) : string :=
  match h !! key with
  | Some (v :: _) => v
  | _ => ""
  end.

(** [isAdmin], on the headers of the request. *)
Definition isAdmin (h : Header) (c : Config) : bool :=
  if String.eqb (AdminPW c) "" then false
  else String.eqb (Header_Get h "Auth") (AdminPW c).

(** ** MultiFS *)

(** What [Open] of one source returns besides a file: an error that
    [errors.Is] recognises as [os.ErrNotExist], or any other error. *)
Inductive fserror : Type :=
| fsNotExist (detail : string)
| fsFailure (detail : string).

(** What [MultiFS.Open] returns besides a file: the error of a source,
    wrapped with the index of the source, or [os.ErrNotExist] itself. *)
Inductive multiError : Type :=
| errSource (i : nat) (cause : fserror)
| ErrNotExist.

Section multifs.
Variable File : Type.

(** An [fs.FS]: its [Open] method. *)
Definition FS : Type := string -> File + fserror.

(** The loop of [MultiFS.Open], from the source with index [i] on. *)
Fixpoint Open_from (i : nat) (sources : list FS) (name : string)
  : File + multiError :=
  match sources with
  | [] => inr ErrNotExist
  | fs :: rest =>
      match fs name with
      | inl f => inl f
      | inr (fsNotExist _) => Open_from (S i) rest name
      | inr (fsFailure detail) => inr (errSource i (fsFailure detail))
      end
  end.

Definition MultiFS_Open (sources : list FS) (name : string)
  : File + multiError :=
  Open_from 0 sources name.

(** The source reports that it has no file of that name. *)
Definition missing (name : string) (fs : FS) : Prop :=
  exists detail, fs name = inr (fsNotExist detail).

End multifs.

(** ** Handlers of the phase and of the deletion of a member *)

(** What a handler writes: an error through [http.Error], the JSON object
    of the phase, or nothing (status 200 with an empty body). A failure of
    the write itself is not part of the model. *)
Inductive response : Type :=
| respError (msg : string) (status : Z)
| respState (state : Z) (state_name : string)
| respNothing.

Definition respond (answer : string * Z) : response :=
  respError (fst answer) (snd answer).

Section handlers.
Context `{GoLib}.

(** The database behind the handlers, with the methods the two handlers
    call. The code of these methods is not among the sources: they are
    taken as they are called, a reader returning its result and a writer
    returning its error and the database it leaves. *)
Variable DB : Type.
Variable db_Bieter : DB -> string -> RawMessage * bool.
Variable db_DeleteBieter : string -> bool -> DB -> option goerror * DB.
Variable db_SetState : list Byte.byte -> DB -> option goerror * DB.
Variable db_State : DB -> ServiceState.

(** The DELETE handler of [handleBieter], for the ID of the path. *)
Definition handleBieter_DELETE
  (config : Config) (bieterID : string) (h : Header) (store : DB)
  : response * DB :=
  let '(_, exist) := db_Bieter store bieterID in
  if negb exist
  then (respond (handleError
                   (errClient {| clientError.msg := "Bieter existiert nicht";
                                 clientError.status := 404 |})), store)
  else
    match db_DeleteBieter bieterID (isAdmin h config) store with
    | (Some err, store') =>
        (respond (handleError
                    (errWrap ("deleting bieter " ++ fmt_q bieterID ++ ": ")
                             err)), store')
    | (None, store') => (respNothing, store')
    end.

(** [handleState], for a request with the given method and body. *)
Definition handleState
  (config : Config) (method : string) (h : Header) (body : list Byte.byte)
  (store : DB) : response * DB :=
  let put :=
    if String.eqb method "PUT" then
      if negb (isAdmin h config)
      then (Some (handleError
                    (errClient {| clientError.msg := "not allowed";
                                  clientError.status := 403 |})), store)
      else
        match db_SetState body store with
        | (Some err, store') =>
            (Some (handleError (errWrap "set state: " err)), store')
        | (None, store') => (None, store')
        end
    else (None, store) in
  match put with
  | (Some answer, store') => (respond answer, store')
  | (None, store') =>
      let s := db_State store' in
      (respState s (ServiceState_String s), store')
  end.

End handlers.

(** ** Names printed on the contract *)

(** [verteilstelle.String] *)
Definition verteilstelle_String (v : Z) : string :=
  if (v =? 1)%Z then "Villingen"
  else if (v =? 2)%Z then "Schwenningen"
  else if (v =? 3)%Z then "Überauchen (Acker)"
  else "UNGÜLTIG".

(** [abbuchung.String] *)
Definition abbuchung_String (a : Z) : string :=
  if (a =? 1)%Z then "Jährlich" else "Monatlich".

(** * Properties *)

(** ** Basic facts about the methods *)

Section method_facts.
Context `{GoLib}.

(** No [validate] method writes to the database. *)
Lemma validate_reads_only (e : Event) (d : Database) :
  snd (validate e d) = d.
Proof.
  destruct e as [u | x | s | o | c]; simpl.
  - unfold eventUpdate.validate.
    repeat match goal with |- context [if ?b then _ else _] => destruct b end;
      reflexivity.
  - unfold eventDelete.validate.
    destruct (negb _ && negb _); reflexivity.
  - reflexivity.
  - unfold eventOffer.validate.
    repeat match goal with |- context [if ?b then _ else _] => destruct b end;
      reflexivity.
  - reflexivity.
Qed.

(** No [execute] method returns an error. *)
Lemma execute_returns_nil (e : Event) (d : Database) :
  fst (execute e d) = None.
Proof. destruct e; reflexivity. Qed.

Lemma Apply_refused (e : Event) (s : Store) (err : validationError) :
  fst (validate e (db s)) = Some err ->
  Apply e s = (Some (errValidation err), s).
Proof.
  intros Herr. unfold Apply.
  pose proof (validate_reads_only e (db s)) as Hsame.
  destruct (validate e (db s)) as [r d]; simpl in *; subst.
  destruct s; reflexivity.
Qed.

Lemma Apply_not_encoded (e : Event) (s : Store) :
  fst (validate e (db s)) = None ->
  encode e = None ->
  Apply e s = (Some errEncode, s).
Proof.
  intros Hok Henc. unfold Apply.
  pose proof (validate_reads_only e (db s)) as Hsame.
  destruct (validate e (db s)) as [r d]; simpl in *; subst.
  rewrite Henc. destruct s; reflexivity.
Qed.

Lemma Apply_accepted (e : Event) (s : Store) (r : LogRecord) :
  fst (validate e (db s)) = None ->
  encode e = Some r ->
  Apply e s =
    (None, {| db := snd (execute e (db s));
              eventLog := (eventLog s ++ [r])%list |}).
Proof.
  intros Hok Henc. unfold Apply.
  pose proof (validate_reads_only e (db s)) as Hsame.
  destruct (validate e (db s)) as [v d]; simpl in *; subst.
  rewrite Henc.
  pose proof (execute_returns_nil e (db s)) as Hnil.
  destruct (execute e (db s)) as [v d']; simpl in *; subst.
  reflexivity.
Qed.

(** The three ways a write ends. *)
Lemma Apply_cases (e : Event) (s : Store) :
  (exists err, Apply e s = (Some err, s)) \/
  (exists r, encode e = Some r /\
             Apply e s =
               (None, {| db := snd (execute e (db s));
                         eventLog := (eventLog s ++ [r])%list |})).
Proof.
  destruct (fst (validate e (db s))) as [err |] eqn:Hval.
  - left. eexists. apply Apply_refused, Hval.
  - destruct (encode e) as [r |] eqn:Henc.
    + right. exists r. split; [reflexivity |].
      apply Apply_accepted; assumption.
    + left. eexists. apply Apply_not_encoded; assumption.
Qed.

(** What is read back from the encoded form of an event. *)
Lemma decode_encode (e : Event) (r : LogRecord) :
  encode e = Some r ->
  wireSafe e ->
  exists e', decode r = Some e' /\
             forall d, execute e' (asReplayed d)
                       = (None, asReplayed (snd (execute e d))).
Proof.
  unfold encode. destruct (marshal e) as [f |] eqn:Hm; [| discriminate].
  intros Hr Hsafe. injection Hr as <-.
  destruct e as [u | x | s | o | c]; simpl in Hm, Hsafe.
  - destruct (match eventUpdate.Payload u with
              | Some bs => json_Valid bs
              | None => true
              end); [| discriminate].
    injection Hm as <-. eexists. split; [reflexivity |].
    intros d. simpl. rewrite Hsafe. unfold asReplayed. simpl.
    rewrite fmap_insert. reflexivity.
  - injection Hm as <-. eexists. split; [reflexivity |].
    intros d. simpl. rewrite Hsafe. unfold asReplayed. simpl.
    rewrite fmap_delete. reflexivity.
  - injection Hm as <-. unfold decode. simpl. rewrite Hsafe.
    eexists. split; [reflexivity |]. intros d. reflexivity.
  - injection Hm as <-. destruct Hsafe as [Hid Hint].
    unfold decode. simpl. rewrite Hint, Hid.
    eexists. split; [reflexivity |]. intros d. reflexivity.
  - injection Hm as <-. eexists. split; [reflexivity |].
    intros d. reflexivity.
Qed.

End method_facts.

(** ** Replay of encoded events *)

Lemma replay_app (l1 l2 : list LogRecord) (d : Database) :
  replay (l1 ++ l2) d =
    match replay l1 d with
    | inl err => inl err
    | inr d' => replay l2 d'
    end.
Proof.
  revert d. induction l1 as [| r l1 IH]; intros d; simpl; [reflexivity |].
  destruct (getEvent (rec_type r)) as [blank |]; [| reflexivity].
  destruct (unmarshal (rec_payload r) blank) as [e |]; [| reflexivity].
  destruct (execute e d) as [[err |] d']; [reflexivity |].
  apply IH.
Qed.

Lemma replay_decoded (r : LogRecord) (e : Event) (d : Database) :
  decode r = Some e ->
  replay [r] d =
    match execute e d with
    | (Some err, _) => inl (errExecute err)
    | (None, d') => inr d'
    end.
Proof.
  unfold decode. cbn [replay].
  destruct (getEvent (rec_type r)) as [blank |]; [| discriminate].
  intros ->. reflexivity.
Qed.

Lemma asReplayed_exact (d : Database) :
  (forall k p, bieter d !! k = Some p -> wire p = p) ->
  asReplayed d = d.
Proof.
  intros Hfix. unfold asReplayed. destruct d as [m o s]; simpl in *.
  f_equal. apply map_eq. intros k. rewrite lookup_fmap.
  destruct (m !! k) as [p |] eqn:Hk; simpl; [| reflexivity].
  rewrite (Hfix k p Hk). reflexivity.
Qed.

Section replay_facts.
Context `{GoLib}.

(** One write keeps the log and the database in step. *)
Lemma Apply_keeps_replay (e : Event) (s : Store) (d0 : Database) :
  (fst (Apply e s) = None -> wireSafe e) ->
  replay (eventLog s) d0 = inr (asReplayed (db s)) ->
  replay (eventLog (snd (Apply e s))) d0
    = inr (asReplayed (db (snd (Apply e s)))).
Proof.
  intros Hsafe Hinv.
  destruct (Apply_cases e s) as [[err Hno] | (r & Henc & Hyes)].
  - rewrite Hno. exact Hinv.
  - rewrite Hyes in Hsafe |- *. cbn [snd fst eventLog db] in *.
    destruct (decode_encode e r Henc (Hsafe eq_refl)) as (e' & Hdec & Hexec).
    rewrite replay_app, Hinv, (replay_decoded r e' _ Hdec), Hexec.
    reflexivity.
Qed.

Lemma accepted_cons (e : Event) (es : list Event) (s : Store) :
  accepted (e :: es) s =
    match fst (Apply e s) with
    | None => e :: accepted es (snd (Apply e s))
    | Some _ => accepted es (snd (Apply e s))
    end.
Proof.
  simpl. destruct (Apply e s) as [[err |] s']; reflexivity.
Qed.

Lemma ApplyAll_keeps_replay (es : list Event) (s : Store) (d0 : Database) :
  Forall wireSafe (accepted es s) ->
  replay (eventLog s) d0 = inr (asReplayed (db s)) ->
  replay (eventLog (ApplyAll es s)) d0
    = inr (asReplayed (db (ApplyAll es s))).
Proof.
  revert s. induction es as [| e es IH]; intros s Hsafe Hinv.
  - exact Hinv.
  - rewrite accepted_cons in Hsafe. cbn [ApplyAll].
    apply IH.
    + destruct (fst (Apply e s)); [exact Hsafe |].
      inversion Hsafe; assumption.
    + apply Apply_keeps_replay; [| exact Hinv].
      intros Hacc. rewrite Hacc in Hsafe. inversion Hsafe; assumption.
Qed.

(** The log holds the encoded forms of the accepted events, in order. *)
Lemma ApplyAll_log (es : list Event) (s : Store) :
  exists added : list LogRecord,
    eventLog (ApplyAll es s) = (eventLog s ++ added)%list /\
    Forall2 (fun e r => encode e = Some r) (accepted es s) added.
Proof.
  revert s. induction es as [| e es IH]; intros s.
  - exists []. split; [symmetry; apply app_nil_r | constructor].
  - rewrite accepted_cons. cbn [ApplyAll].
    destruct (IH (snd (Apply e s))) as (added & Hlog & Hall).
    destruct (Apply_cases e s) as [[err Hno] | (r & Henc & Hyes)].
    + rewrite Hno in *. cbn [fst snd] in *. exists added. split; assumption.
    + rewrite Hyes in *. cbn [fst snd eventLog] in *.
      exists (r :: added). split.
      * rewrite Hlog, <- app_assoc. reflexivity.
      * constructor; assumption.
Qed.

End replay_facts.

(** ** Properties of the store *)

Section store_properties.
Context `{GoLib}.

(** C1: for every sequence of events submitted to the live
    store from the empty initial store, the log holds the encoded forms of
    exactly the events that were accepted (validate, encode, then execute),
    in order. When the accepted events have IDs that are valid UTF-8 and
    integers of Go's [int], decoding each record by its type tag and
    replaying it with [execute] only, from the empty initial store, gives
    the same phase, the same offer map and the same member IDs as the live
    store ended in, every member payload being the bytes the JSON encoder
    wrote for it; the member map is exactly the same when every stored
    payload already is in that form. *)
Theorem replay_reproduces_encoded_store (es : list Event) :
  let s := ApplyAll es newStore in
  Forall wireSafe (accepted es newStore) ->
  Forall2 (fun e r => encode e = Some r) (accepted es newStore) (eventLog s) /\
  startup (eventLog s) = inr (asReplayed (db s)) /\
  ((forall k p, bieter (db s) !! k = Some p -> wire p = p) ->
   startup (eventLog s) = inr (db s)).
Proof.
  intros s Hsafe.
  assert (Hreplay : startup (eventLog s) = inr (asReplayed (db s))).
  { unfold startup, s. apply ApplyAll_keeps_replay; [exact Hsafe |].
    simpl. unfold asReplayed, emptyDatabase. simpl.
    rewrite fmap_empty. reflexivity. }
  split; [| split].
  - destruct (ApplyAll_log es newStore) as (added & Hlog & Hall).
    unfold s. rewrite Hlog. exact Hall.
  - exact Hreplay.
  - intros Hfix. rewrite Hreplay, (asReplayed_exact _ Hfix). reflexivity.
Qed.

(** C2: for every event and every store, when [validate] returns an error
    the database is as it was before the call (member map, offer map and
    phase), nothing is written to the log, and the caller of the write path
    receives that very error. *)
Theorem refused_event_changes_nothing
  (e : Event) (s : Store) (err : validationError) :
  fst (validate e (db s)) = Some err ->
  snd (validate e (db s)) = db s /\
  Apply e s = (Some (errValidation err), s).
Proof.
  intros Herr. split.
  - apply validate_reads_only.
  - apply Apply_refused, Herr.
Qed.

End store_properties.

Lemma getEvent_unknown (tag : string) :
  tag <> "update" -> tag <> "delete" -> tag <> "state" ->
  tag <> "offer" -> tag <> "offer-clear" ->
  getEvent tag = None.
Proof.
  intros Hu Hd Hs Ho Hc. unfold getEvent.
  apply String.eqb_neq in Hu, Hd, Hs, Ho, Hc.
  rewrite Hu, Hd, Hs, Ho, Hc. reflexivity.
Qed.

(** C5: a record whose type tag is none of the five recognised tags decodes
    to no event, and a log that holds such a record is not replayed past
    it: the startup fails, with the unknown tag as the reason whenever the
    records before it replay. *)
Theorem unknown_tag_fails_startup
  (tag : string) (f : Fields) (pre post : list LogRecord) :
  tag <> "update" -> tag <> "delete" -> tag <> "state" ->
  tag <> "offer" -> tag <> "offer-clear" ->
  let r := {| rec_type := tag; rec_payload := f |} in
  getEvent tag = None /\
  decode r = None /\
  (exists err, startup (pre ++ r :: post) = inl err) /\
  (forall d d', replay pre d = inr d' ->
                replay (pre ++ r :: post) d = inl (errNoSuchEvent tag)).
Proof.
  intros Hu Hd Hs Ho Hc r.
  pose proof (getEvent_unknown tag Hu Hd Hs Ho Hc) as Hget.
  assert (Hdec : decode r = None) by (unfold decode; simpl; rewrite Hget; reflexivity).
  assert (Hfail : forall d, replay (r :: post) d = inl (errNoSuchEvent tag))
    by (intros d; cbn [replay]; simpl; rewrite Hget; reflexivity).
  repeat split; try assumption.
  - unfold startup. rewrite replay_app.
    destruct (replay pre emptyDatabase) as [err | d'].
    + exists err. reflexivity.
    + exists (errNoSuchEvent tag). apply Hfail.
  - intros d d' Hpre. rewrite replay_app, Hpre. apply Hfail.
Qed.

(** ** Properties of the events *)

Lemma exist_true {V : Type} (m : gmap string V) (k : string) :
  exist m k = true <-> is_Some (m !! k).
Proof.
  unfold exist. destruct (m !! k) as [v |]; split; intros Hx;
    try reflexivity; try discriminate; eauto.
  destruct Hx as [v Hv]. discriminate.
Qed.

Lemma exist_false {V : Type} (m : gmap string V) (k : string) :
  exist m k = false <-> m !! k = None.
Proof.
  unfold exist. destruct (m !! k) as [v |]; split; intros Hx;
    try reflexivity; discriminate.
Qed.

Lemma phase_differs (p q : ServiceState) : p <> q -> (p =? q)%Z = false.
Proof. intros Hne. apply Z.eqb_neq, Hne. Qed.

Section event_properties.
Context `{GoLib}.

(** C3: in a store whose phase is not Registration, a Create, an Update and
    a Delete event with [asAdmin = false] fail validation with the
    validation error "invalid state". With [asAdmin = true] the phase is
    not looked at, in any store: a Create event fails only when the ID
    exists, an Update event only when the ID does not exist, and a Delete
    event never. *)
Theorem member_events_phase_gate
  (d : Database) (id : string) (p : RawMessage) (c : bool) :
  state d <> stateRegistration ->
  let update (a : bool) :=
    EvUpdate {| eventUpdate.ID := id; eventUpdate.Payload := p;
                eventUpdate.create := c; eventUpdate.asAdmin := a |} in
  let delete (a : bool) :=
    EvDelete {| eventDelete.ID := id; eventDelete.asAdmin := a |} in
  validate (update false) d = (Some {| msg := "invalid state" |}, d) /\
  validate (delete false) d = (Some {| msg := "invalid state" |}, d) /\
  (forall d' : Database,
      validate (update true) d' =
        (if c
         then if exist (bieter d') id then Some errIDExists else None
         else if exist (bieter d') id then None
              else Some {| msg := "Bieter " ++ fmt_q id ++ " does not exist" |},
         d') /\
      validate (delete true) d' = (None, d')).
Proof.
  intros Hphase update delete.
  apply phase_differs in Hphase.
  repeat split.
  - simpl. unfold eventUpdate.validate. simpl. rewrite Hphase. reflexivity.
  - simpl. unfold eventDelete.validate. simpl. rewrite Hphase. reflexivity.
  - simpl. unfold eventUpdate.validate. simpl.
    destruct c, (exist (bieter d') id); reflexivity.
Qed.

(** C4: the minimum offer is 4000. Constructing a SetOffer event with a
    smaller amount fails with a validation error, whatever [asAdmin] is,
    and succeeds otherwise. Validation of a SetOffer event fails when
    [asAdmin = false] and the phase is not Offer, and fails when the ID is
    not in the member map, also with [asAdmin = true]. In every other case
    the event is accepted, and [execute] sets the offer of that ID to the
    amount and changes nothing else. *)
Theorem offer_event_checks
  (d : Database) (id : string) (amount : Z) (a : bool) :
  let e := {| eventOffer.ID := id; eventOffer.Offer := amount;
              eventOffer.asAdmin := a |} in
  lowestOffer = 4000%Z /\
  (amount < 4000 ->
   exists err, newEventOffer id amount a = (eventOffer.zero, Some err))%Z /\
  (4000 <= amount -> newEventOffer id amount a = (e, None))%Z /\
  (a = false -> state d <> stateOffer ->
   validate (EvOffer e) d = (Some {| msg := "invalid state" |}, d)) /\
  (bieter d !! id = None ->
   exists err, validate (EvOffer e) d = (Some err, d)) /\
  ((a = true \/ state d = stateOffer) -> is_Some (bieter d !! id) ->
   validate (EvOffer e) d = (None, d) /\
   execute (EvOffer e) d =
     (None, {| bieter := bieter d;
               offer := <[id := amount]> (offer d);
               state := state d |}) /\
   Offer (snd (execute (EvOffer e) d)) id = amount).
Proof.
  intros e. split; [reflexivity |].
  split; [| split; [| split; [| split]]].
  - intros Hlow. unfold newEventOffer, lowestOffer.
    apply Z.ltb_lt in Hlow. rewrite Hlow. eauto.
  - intros Hok. unfold newEventOffer, lowestOffer.
    apply Z.ltb_ge in Hok. rewrite Hok. reflexivity.
  - intros Ha Hphase. subst a. apply phase_differs in Hphase.
    simpl. unfold eventOffer.validate. simpl. rewrite Hphase. reflexivity.
  - intros Hmiss. apply exist_false in Hmiss.
    simpl. unfold eventOffer.validate. simpl. rewrite Hmiss.
    destruct (negb a && negb (state d =? stateOffer)%Z); eauto.
  - intros Hgate Hin. apply exist_true in Hin.
    repeat split.
    + simpl. unfold eventOffer.validate. simpl. rewrite Hin.
      destruct Hgate as [-> | ->]; [reflexivity |].
      rewrite Z.eqb_refl, andb_false_r. reflexivity.
    + unfold Offer. simpl. rewrite lookup_insert_eq. reflexivity.
Qed.

(** C6: constructing a SetPhase event fails with a validation error for
    every value outside 1..3. For a value inside 1..3 it succeeds; the
    event passes validation in every store, and right after its execution
    the phase read from the database is the new value, the members and the
    offers being as before. *)
Theorem set_phase_event (v : ServiceState) :
  ((v < 1 \/ 3 < v)%Z ->
   exists err, newEventStatus v = (eventServiceState.zero, Some err)) /\
  ((1 <= v <= 3)%Z ->
   let e := {| eventServiceState.NewState := v |} in
   newEventStatus v = (e, None) /\
   forall d : Database,
     validate (EvServiceState e) d = (None, d) /\
     fst (execute (EvServiceState e) d) = None /\
     State (snd (execute (EvServiceState e) d)) = v /\
     bieter (snd (execute (EvServiceState e) d)) = bieter d /\
     offer (snd (execute (EvServiceState e) d)) = offer d).
Proof.
  split.
  - intros Hout. unfold newEventStatus.
    assert (Hb : (v <? 1)%Z || (v >? 3)%Z = true).
    { apply orb_true_iff. rewrite Z.ltb_lt, Z.gtb_lt. lia. }
    rewrite Hb. eauto.
  - intros Hin e. unfold newEventStatus.
    assert (Hb : (v <? 1)%Z || (v >? 3)%Z = false).
    { apply orb_false_iff. rewrite Z.ltb_ge, Z.gtb_ltb, Z.ltb_ge. lia. }
    rewrite Hb. split; [reflexivity |].
    intros d. repeat split.
Qed.

(** C7: constructing an Update or a Create event fails with a validation
    error exactly when the payload is [nil] or is not valid JSON; otherwise
    the event carries the given ID, payload and privilege, with [create]
    set for a Create event only. A Create event whose ID is already in the
    member map fails validation, with [errIDExists] when [asAdmin = true]
    and in every phase. *)
Theorem member_event_construction
  (id : string) (p : RawMessage) (a : bool) (d : Database) :
  let bad := p = None \/ exists bs, p = Some bs /\ json_Valid bs = false in
  let made (c : bool) :=
    {| eventUpdate.ID := id; eventUpdate.Payload := p;
       eventUpdate.create := c; eventUpdate.asAdmin := a |} in
  (is_Some (snd (newEventUpdate id p a)) <-> bad) /\
  (is_Some (snd (newEventCreate id p a)) <-> bad) /\
  (snd (newEventUpdate id p a) = None ->
   newEventUpdate id p a = (made false, None)) /\
  (snd (newEventCreate id p a) = None ->
   newEventCreate id p a = (made true, None)) /\
  (is_Some (bieter d !! id) ->
   (exists err, validate (EvUpdate (made true)) d = (Some err, d)) /\
   (a = true -> validate (EvUpdate (made true)) d = (Some errIDExists, d))).
Proof.
  intros bad made.
  assert (Hupd : (is_Some (snd (newEventUpdate id p a)) <-> bad) /\
                 (snd (newEventUpdate id p a) = None ->
                  newEventUpdate id p a = (made false, None))).
  { unfold newEventUpdate, bad. destruct p as [bs |].
    - destruct (json_Valid bs) eqn:Hv; simpl; split.
      + split.
        * intros [x Hx]. discriminate.
        * intros [Hn | (bs' & Hbs & Hinv)]; [discriminate |].
          injection Hbs as <-. congruence.
      + reflexivity.
      + split; [| eauto]. intros _. right. eauto.
      + discriminate.
    - simpl. split; [| discriminate]. split; eauto. }
  destruct Hupd as [Hiff Hmade].
  assert (Hsnd : snd (newEventCreate id p a) = snd (newEventUpdate id p a))
    by (unfold newEventCreate; destruct (newEventUpdate id p a); reflexivity).
  split; [exact Hiff |].
  split; [rewrite Hsnd; exact Hiff |].
  split; [exact Hmade |].
  split.
  - rewrite Hsnd. intros Hok. unfold newEventCreate.
    rewrite (Hmade Hok). reflexivity.
  - intros Hin. apply exist_true in Hin.
    simpl. unfold eventUpdate.validate. simpl. rewrite Hin. split.
    + destruct (negb a && negb (state d =? stateRegistration)%Z); eauto.
    + intros ->. reflexivity.
Qed.

(** C8: a ClearOffers event passes validation in every store (the event
    carries no privilege and its validation looks at nothing), and after
    its execution the offer map is empty: the offer read for every ID is 0.
    Members and phase are as before. *)
Theorem clear_offers_event (c : eventOfferClear.t) (d : Database) :
  validate (EvOfferClear c) d = (None, d) /\
  execute (EvOfferClear c) d =
    (None, {| bieter := bieter d; offer := ∅; state := state d |}) /\
  forall id : string,
    offer (snd (execute (EvOfferClear c) d)) !! id = None /\
    Offer (snd (execute (EvOfferClear c) d)) id = 0%Z.
Proof.
  repeat split.
Qed.

(** C9: executing a Delete event for an ID removes that ID from the member
    map and changes nothing else: every other member, the phase and the
    whole offer map are as before, so an offer stored under the deleted ID
    is still read under it. *)
Theorem delete_event_frame (x : eventDelete.t) (d : Database) :
  let d' := snd (execute (EvDelete x) d) in
  fst (execute (EvDelete x) d) = None /\
  bieter d' !! eventDelete.ID x = None /\
  Bieter d' (eventDelete.ID x) = (None, false) /\
  (forall k : string,
      k <> eventDelete.ID x -> bieter d' !! k = bieter d !! k) /\
  offer d' = offer d /\
  state d' = state d /\
  Offer d' (eventDelete.ID x) = Offer d (eventDelete.ID x).
Proof.
  intros d'. subst d'. simpl.
  assert (Hgone : delete (eventDelete.ID x) (bieter d) !! eventDelete.ID x
                  = None) by apply lookup_delete_eq.
  repeat split; try assumption.
  - unfold Bieter. simpl. rewrite Hgone. reflexivity.
  - intros k Hk. apply lookup_delete_ne. congruence.
Qed.

(** C10: executing a Create/Update event assigns the payload
    to the member map at the target ID and does nothing else, whatever the
    unexported flags [create] and [asAdmin] are. The event is encoded
    exactly when its payload is [nil] or valid JSON; the event decoded from
    its encoded form has both flags unset, the ID coerced to valid UTF-8
    and the payload in the bytes the JSON encoder wrote for it, and
    executing it assigns that payload. It executes exactly as the event
    that was encoded when the ID is valid UTF-8 and the payload already is
    in the encoder's form. *)
Theorem update_execute_ignores_flags (u : eventUpdate.t) (d : Database) :
  let stored :=
    {| bieter := <[eventUpdate.ID u := eventUpdate.Payload u]> (bieter d);
       offer := offer d;
       state := state d |} in
  let flagged (c a : bool) :=
    EvUpdate {| eventUpdate.ID := eventUpdate.ID u;
                eventUpdate.Payload := eventUpdate.Payload u;
                eventUpdate.create := c; eventUpdate.asAdmin := a |} in
  let decoded :=
    EvUpdate {| eventUpdate.ID := toValidUTF8 (eventUpdate.ID u);
                eventUpdate.Payload := wire (eventUpdate.Payload u);
                eventUpdate.create := false; eventUpdate.asAdmin := false |} in
  execute (EvUpdate u) d = (None, stored) /\
  (forall c a : bool, execute (flagged c a) d = (None, stored)) /\
  Name (EvUpdate u) = "update" /\
  (is_Some (encode (EvUpdate u)) <->
   eventUpdate.Payload u = None \/
   exists bs, eventUpdate.Payload u = Some bs /\ json_Valid bs = true) /\
  (forall r : LogRecord,
      encode (EvUpdate u) = Some r ->
      decode r = Some decoded /\
      execute decoded d =
        (None,
         {| bieter := <[toValidUTF8 (eventUpdate.ID u)
                        := wire (eventUpdate.Payload u)]> (bieter d);
            offer := offer d;
            state := state d |}) /\
      (toValidUTF8 (eventUpdate.ID u) = eventUpdate.ID u ->
       wire (eventUpdate.Payload u) = eventUpdate.Payload u ->
       execute decoded d = execute (EvUpdate u) d)).
Proof.
  intros stored flagged decoded. subst stored flagged decoded.
  split; [reflexivity |]. split; [reflexivity |]. split; [reflexivity |].
  unfold encode. simpl.
  destruct (eventUpdate.Payload u) as [bs |] eqn:Hp.
  - destruct (json_Valid bs) eqn:Hvalid; split.
    + split; [intros _; right; eauto | intros _; eauto].
    + intros r Hr. injection Hr as <-.
      split; [reflexivity |]. split; [reflexivity |].
      intros Hid Hwire. simpl. unfold eventUpdate.execute. simpl.
      rewrite Hid, Hwire, Hp. reflexivity.
    + split.
      * intros [r Hr]. discriminate.
      * intros [Hnil | (bs' & Hbs & Hok)]; [discriminate |].
        injection Hbs as <-. congruence.
    + intros r Hr. discriminate.
  - split.
    + split; [intros _; left; reflexivity | intros _; eauto].
    + intros r Hr. injection Hr as <-.
      split; [reflexivity |]. split; [reflexivity |].
      intros Hid Hwire. discriminate Hwire.
Qed.

End event_properties.

(** ** The properties on concrete stores *)

(** C2 at a store in the Offer phase: a Delete by a member is refused and
    the store stays as it was. *)
Lemma refused_event_changes_nothing_witness :
  let e := EvDelete {| eventDelete.ID := "17"; eventDelete.asAdmin := false |} in
  let written :=
    {| rec_type := "delete";
       rec_payload := {| f_id := Some "17"; f_payload := None;
                         f_state := None; f_offer := None |} |} in
  let s := {| db := sampleDatabase stateOffer; eventLog := [written] |} in
  snd (@validate sampleLib e (db s)) = db s /\
  @Apply sampleLib e s = (Some (errValidation {| msg := "invalid state" |}), s).
Proof.
  intros e written s.
  apply (@refused_event_changes_nothing sampleLib e s {| msg := "invalid state" |}).
  reflexivity.
Defined.

(** C3 at a store in the Offer phase, for the ID of a registered member. *)
Lemma member_events_phase_gate_witness :
  let d := sampleDatabase stateOffer in
  state d <> stateRegistration /\
  @validate sampleLib
     (EvUpdate {| eventUpdate.ID := "17"; eventUpdate.Payload := bytes "{}";
                  eventUpdate.create := false; eventUpdate.asAdmin := false |}) d
    = (Some {| msg := "invalid state" |}, d) /\
  @validate sampleLib
     (EvUpdate {| eventUpdate.ID := "17"; eventUpdate.Payload := bytes "{}";
                  eventUpdate.create := false; eventUpdate.asAdmin := true |}) d
    = (None, d).
Proof.
  intros d.
  assert (Hphase : state d <> stateRegistration) by (simpl; discriminate).
  destruct (@member_events_phase_gate sampleLib d "17" (bytes "{}") false Hphase)
    as (Hupdate & _ & Hadmin).
  split; [exact Hphase |]. split; [exact Hupdate |].
  exact (proj1 (Hadmin d)).
Defined.

(** C4 on a store in the Closed phase: an amount of 3999 is refused by the
    constructor, an offer of 5000 by a member is refused in this phase, and
    the same offer by the admin is stored. *)
Lemma offer_event_checks_witness :
  let d := sampleDatabase stateClosed in
  (exists err, @newEventOffer sampleLib "17" 3999 false
               = (eventOffer.zero, Some err)) /\
  @validate sampleLib
     (EvOffer {| eventOffer.ID := "17"; eventOffer.Offer := 5000;
                 eventOffer.asAdmin := false |}) d
    = (Some {| msg := "invalid state" |}, d) /\
  Offer (snd (execute
     (EvOffer {| eventOffer.ID := "17"; eventOffer.Offer := 5000;
                 eventOffer.asAdmin := true |}) d)) "17" = 5000%Z.
Proof.
  intros d.
  destruct (@offer_event_checks sampleLib d "17" 3999 false)
    as (_ & Hlow & _).
  destruct (@offer_event_checks sampleLib d "17" 5000 false)
    as (_ & _ & _ & Hphase & _).
  destruct (@offer_event_checks sampleLib d "17" 5000 true)
    as (_ & _ & _ & _ & _ & Hok).
  split; [apply Hlow; lia |].
  split; [apply Hphase; [reflexivity | simpl; discriminate] |].
  apply Hok; [left; reflexivity | simpl; eauto].
Defined.

(** C5 on a log whose second record has the tag "create", which no event
    has: the startup fails at that record. *)
Lemma unknown_tag_fails_startup_witness :
  let f := {| f_id := Some "17"; f_payload := Some (list_byte_of_string "{}");
              f_state := None; f_offer := None |} in
  let first :=
    {| rec_type := "state";
       rec_payload := {| f_id := None; f_payload := None;
                         f_state := Some 2%Z; f_offer := None |} |} in
  startup [first; {| rec_type := "create"; rec_payload := f |}; first]
    = inl (errNoSuchEvent "create").
Proof.
  intros f first.
  assert (Htag : "create" <> "update" /\ "create" <> "delete" /\
                 "create" <> "state" /\ "create" <> "offer" /\
                 "create" <> "offer-clear")
    by (repeat split; discriminate).
  destruct Htag as (Hu & Hd & Hs & Ho & Hc).
  destruct (unknown_tag_fails_startup "create" f [first] [first] Hu Hd Hs Ho Hc)
    as (_ & _ & _ & Hfail).
  apply (Hfail emptyDatabase (snd (execute (EvServiceState
           {| eventServiceState.NewState := 2 |}) emptyDatabase))).
  reflexivity.
Defined.

(** C6 at the values 4 and 2. *)
Lemma set_phase_event_witness :
  (exists err, @newEventStatus sampleLib 4 = (eventServiceState.zero, Some err)) /\
  @newEventStatus sampleLib 2 = ({| eventServiceState.NewState := 2 |}, None) /\
  State (snd (execute (EvServiceState {| eventServiceState.NewState := 2 |})
                emptyDatabase)) = 2%Z.
Proof.
  destruct (@set_phase_event sampleLib 4) as [Hout _].
  destruct (@set_phase_event sampleLib 2) as [_ Hin].
  split; [apply Hout; lia |].
  assert (Hrange : (1 <= 2 <= 3)%Z) by lia.
  destruct (Hin Hrange) as [Hmade Hrun].
  split; [exact Hmade |].
  destruct (Hrun emptyDatabase) as (_ & _ & Hstate & _). exact Hstate.
Defined.

(** C7 with a payload that is valid JSON, for an ID that is taken. *)
Lemma member_event_construction_witness :
  let d := sampleDatabase stateClosed in
  let e := {| eventUpdate.ID := "17"; eventUpdate.Payload := bytes "{}";
              eventUpdate.create := true; eventUpdate.asAdmin := true |} in
  @newEventCreate sampleLib "17" (bytes "{}") true = (e, None) /\
  @validate sampleLib (EvUpdate e) d = (Some errIDExists, d).
Proof.
  intros d e.
  destruct (@member_event_construction sampleLib "17" (bytes "{}") true d)
    as (_ & _ & _ & Hmade & Htaken).
  split; [apply Hmade; reflexivity |].
  apply Htaken; [simpl; eauto | reflexivity].
Defined.

(** C1 does not hold with the member map taken byte for byte: at a
    registration with the payload [[1, 2]] the constructor and the store
    accept the event, the live store holds the payload with its blank, the
    replayed store holds it without, so the replay does not give the
    database of the live store. *)
Lemma replay_changes_payload_bytes :
  let made := @newEventCreate sampleLib "17" (bytes "[1, 2]") false in
  let e := EvUpdate (fst made) in
  let s := @ApplyAll sampleLib [e] newStore in
  snd made = None /\
  fst (@Apply sampleLib e newStore) = None /\
  Bieter (db s) "17" = (bytes "[1, 2]", true) /\
  (exists d, startup (eventLog s) = inr d /\
             Bieter d "17" = (bytes "[1,2]", true)) /\
  startup (eventLog s) <> inr (db s).
Proof.
  intros made e s.
  split; [vm_compute; reflexivity |]. split; [vm_compute; reflexivity |].
  split; [vm_compute; reflexivity |].
  split.
  - exists (asReplayed (db s)). split; vm_compute; reflexivity.
  - intros Heq.
    apply (f_equal (fun r : startupError + Database =>
                      match r with
                      | inr d => Bieter d "17"
                      | inl _ => (None, false)
                      end)) in Heq.
    vm_compute in Heq. discriminate Heq.
Defined.

(** C1 at a registration with the payload [[1, 2]], the opening of the
    Offer phase and an offer: the replay gives the live database with the
    payload as the encoder wrote it. *)
Lemma replay_reproduces_encoded_store_witness :
  let es :=
    [EvUpdate (fst (@newEventCreate sampleLib "17" (bytes "[1, 2]") false));
     EvServiceState (fst (@newEventStatus sampleLib 2));
     EvOffer (fst (@newEventOffer sampleLib "17" 5000 false))] in
  let s := @ApplyAll sampleLib es newStore in
  Forall wireSafe (@accepted sampleLib es newStore) /\
  length (eventLog s) = 3%nat /\
  startup (eventLog s) = inr (asReplayed (db s)) /\
  Bieter (asReplayed (db s)) "17" = (bytes "[1,2]", true).
Proof.
  intros es s.
  assert (Hsafe : Forall wireSafe (@accepted sampleLib es newStore)).
  { assert (Hacc : @accepted sampleLib es newStore = es)
      by (vm_compute; reflexivity).
    rewrite Hacc. unfold es.
    constructor; [vm_compute; reflexivity |].
    constructor; [vm_compute; reflexivity |].
    constructor; [split; vm_compute; reflexivity |].
    constructor. }
  destruct (@replay_reproduces_encoded_store sampleLib es Hsafe)
    as (_ & Hreplay & _).
  split; [exact Hsafe |]. split; [vm_compute; reflexivity |].
  split; [exact Hreplay | vm_compute; reflexivity].
Defined.

(** C10 does not hold with identical effects for every payload: at a Create
    event with the payload [[1, 2]] the event decoded from its encoded form
    stores other bytes than the event itself. *)
Lemma decoded_create_stores_other_bytes :
  let made := @newEventCreate sampleLib "17" (bytes "[1, 2]") false in
  let u := fst made in
  exists (r : LogRecord) (e' : Event),
    snd made = None /\
    eventUpdate.create u = true /\
    @encode sampleLib (EvUpdate u) = Some r /\
    decode r = Some e' /\
    execute e' emptyDatabase <> execute (EvUpdate u) emptyDatabase.
Proof.
  intros made u.
  exists {| rec_type := "update";
            rec_payload := {| f_id := Some "17";
                              f_payload := Some (list_byte_of_string "[1,2]");
                              f_state := None; f_offer := None |} |}.
  exists (EvUpdate {| eventUpdate.ID := "17";
                      eventUpdate.Payload := bytes "[1,2]";
                      eventUpdate.create := false;
                      eventUpdate.asAdmin := false |}).
  split; [vm_compute; reflexivity |]. split; [vm_compute; reflexivity |].
  split; [vm_compute; reflexivity |]. split; [vm_compute; reflexivity |].
  intros Heq.
  apply (f_equal (fun r : error * Database => Bieter (snd r) "17")) in Heq.
  vm_compute in Heq. discriminate Heq.
Defined.

(** C10 at a Create event whose payload [{}] is in the encoder's form: the
    decoded event executes as the event itself. *)
Lemma update_execute_ignores_flags_witness :
  let u := {| eventUpdate.ID := "17"; eventUpdate.Payload := bytes "{}";
              eventUpdate.create := true; eventUpdate.asAdmin := true |} in
  let decoded :=
    EvUpdate {| eventUpdate.ID := "17"; eventUpdate.Payload := bytes "{}";
                eventUpdate.create := false; eventUpdate.asAdmin := false |} in
  exists r : LogRecord,
    @encode sampleLib (EvUpdate u) = Some r /\
    decode r = Some decoded /\
    execute decoded (sampleDatabase stateClosed)
      = execute (EvUpdate u) (sampleDatabase stateClosed).
Proof.
  intros u decoded.
  set (r := {| rec_type := "update";
               rec_payload := {| f_id := Some "17";
                                 f_payload := Some (list_byte_of_string "{}");
                                 f_state := None; f_offer := None |} |}).
  assert (Henc : @encode sampleLib (EvUpdate u) = Some r)
    by (vm_compute; reflexivity).
  exists r. split; [exact Henc |].
  destruct (@update_execute_ignores_flags sampleLib u
              (sampleDatabase stateClosed)) as (_ & _ & _ & _ & Hdecoded).
  destruct (Hdecoded r Henc) as (Hdec & _ & Hsame).
  split; [rewrite Hdec; vm_compute; reflexivity |].
  assert (Hid : toValidUTF8 (eventUpdate.ID u) = eventUpdate.ID u)
    by (vm_compute; reflexivity).
  assert (Hwire : wire (eventUpdate.Payload u) = eventUpdate.Payload u)
    by (vm_compute; reflexivity).
  rewrite <- (Hsame Hid Hwire). vm_compute. reflexivity.
Defined.

(** The scenario of the specification, run on the model: a member registers
    and is read back, the admin opens the Offer phase, an offer of 3000 is
    refused by the constructor and one of 5000 is stored, the member cannot
    delete the record but the admin can, and the log replays to the final
    database. *)
Example scenario_register_offer_delete :
  let create := fst (@newEventCreate sampleLib "17" (bytes "{}") false) in
  let phase := fst (@newEventStatus sampleLib 2) in
  let offer := fst (@newEventOffer sampleLib "17" 5000 false) in
  let s1 := snd (@Apply sampleLib (EvUpdate create) newStore) in
  let s2 := snd (@Apply sampleLib (EvServiceState phase) s1) in
  let s3 := snd (@Apply sampleLib (EvOffer offer) s2) in
  let s4 := snd (@Apply sampleLib (EvDelete (newEventDelete "17" true)) s3) in
  Bieter (db s1) "17" = (bytes "{}", true) /\
  State (db s2) = stateOffer /\
  is_Some (snd (@newEventOffer sampleLib "17" 3000 false)) /\
  Offer (db s3) "17" = 5000%Z /\
  is_Some (fst (@Apply sampleLib (EvDelete (newEventDelete "17" false)) s3)) /\
  Bieter (db s4) "17" = (None, false) /\
  Offer (db s4) "17" = 5000%Z /\
  startup (eventLog s4) = inr (db s4).
Proof.
  vm_compute. repeat split; eauto.
Qed.

(** * Further properties of the events *)

(** X1: the tag every event reports with [Name] is one [getEvent] knows, and
    [getEvent] answers it with the zero value of the same struct; two
    events report the same tag only when they are values of the same
    struct. *)
Theorem getEvent_resolves_every_Name (e : Event) :
  let blank (x : Event) :=
    match x with
    | EvUpdate _ => EvUpdate eventUpdate.zero
    | EvDelete _ => EvDelete eventDelete.zero
    | EvServiceState _ => EvServiceState eventServiceState.zero
    | EvOffer _ => EvOffer eventOffer.zero
    | EvOfferClear _ => EvOfferClear eventOfferClear.zero
    end in
  getEvent (Name e) = Some (blank e) /\
  forall e' : Event, Name e' = Name e -> blank e' = blank e.
Proof.
  intros blank. split.
  - destruct e; reflexivity.
  - intros e' Hname. destruct e, e'; try reflexivity; discriminate Hname.
Qed.

Section event_composition.
Context `{GoLib}.

(** X2: validation looks at the phase and at which IDs are registered, and
    at nothing else: in two databases with the same phase and the same
    registered IDs every event gets the same answer, whatever the payloads
    and the offers are. *)
Theorem validate_reads_phase_and_ids (e : Event) (d1 d2 : Database) :
  state d1 = state d2 ->
  (forall k : string, exist (bieter d1) k = exist (bieter d2) k) ->
  fst (validate e d1) = fst (validate e d2).
Proof.
  intros Hstate Hids.
  destruct e as [u | x | s | o | c]; simpl; try reflexivity.
  - unfold eventUpdate.validate.
    rewrite Hstate, (Hids (eventUpdate.ID u)).
    repeat match goal with |- context [if ?b then _ else _] => destruct b end;
      reflexivity.
  - unfold eventDelete.validate. rewrite Hstate.
    destruct (negb _ && negb _); reflexivity.
  - unfold eventOffer.validate.
    rewrite Hstate, (Hids (eventOffer.ID o)).
    repeat match goal with |- context [if ?b then _ else _] => destruct b end;
      reflexivity.
Qed.

(** X3: the admin is never refused where a member is accepted: when an
    Update, Create, Delete or SetOffer event passes validation with
    [asAdmin = false], the event with the same fields and [asAdmin = true]
    passes it in the same database. In the phase of the event (Registration
    for member events, Offer for offers) both get the same answer. *)
Theorem admin_never_stricter
  (d : Database) (id : string) (p : RawMessage) (c : bool) (amount : Z) :
  let update (a : bool) :=
    EvUpdate {| eventUpdate.ID := id; eventUpdate.Payload := p;
                eventUpdate.create := c; eventUpdate.asAdmin := a |} in
  let delete (a : bool) :=
    EvDelete {| eventDelete.ID := id; eventDelete.asAdmin := a |} in
  let offer (a : bool) :=
    EvOffer {| eventOffer.ID := id; eventOffer.Offer := amount;
               eventOffer.asAdmin := a |} in
  (fst (validate (update false) d) = None ->
   fst (validate (update true) d) = None) /\
  (fst (validate (delete false) d) = None ->
   fst (validate (delete true) d) = None) /\
  (fst (validate (offer false) d) = None ->
   fst (validate (offer true) d) = None) /\
  (state d = stateRegistration ->
   validate (update false) d = validate (update true) d /\
   validate (delete false) d = validate (delete true) d) /\
  (state d = stateOffer ->
   validate (offer false) d = validate (offer true) d).
Proof.
  intros update delete offer.
  unfold update, delete, offer; simpl.
  unfold eventUpdate.validate, eventDelete.validate, eventOffer.validate; simpl.
  split; [| split; [| split; [| split]]].
  - destruct (state d =? stateRegistration)%Z; simpl; [tauto | discriminate].
  - destruct (state d =? stateRegistration)%Z; simpl; [tauto | discriminate].
  - destruct (state d =? stateOffer)%Z; simpl; [tauto | discriminate].
  - intros Hphase. rewrite Hphase. split; reflexivity.
  - intros Hphase. rewrite Hphase. reflexivity.
Qed.

End event_composition.

Section event_sequences.
Context `{GoLib}.

(** X4: once a Create or Update event for an ID has been executed, the ID
    is registered with the payload of the event: every Create event for
    that ID is refused, in every phase and also for the admin, while an
    Update event for it is accepted from the admin and in the Registration
    phase, and a SetOffer event from the admin and in the Offer phase. *)
Theorem registered_after_update
  (u : eventUpdate.t) (d : Database) (p : RawMessage) (a : bool) (amount : Z) :
  let id := eventUpdate.ID u in
  let d' := snd (execute (EvUpdate u) d) in
  let member (c : bool) :=
    EvUpdate {| eventUpdate.ID := id; eventUpdate.Payload := p;
                eventUpdate.create := c; eventUpdate.asAdmin := a |} in
  let bid :=
    EvOffer {| eventOffer.ID := id; eventOffer.Offer := amount;
               eventOffer.asAdmin := a |} in
  Bieter d' id = (eventUpdate.Payload u, true) /\
  (exists err, validate (member true) d' = (Some err, d')) /\
  ((a = true \/ state d = stateRegistration) ->
   validate (member false) d' = (None, d')) /\
  ((a = true \/ state d = stateOffer) -> validate bid d' = (None, d')).
Proof.
  intros id d' member bid.
  assert (Hin : bieter d' !! id = Some (eventUpdate.Payload u))
    by apply lookup_insert_eq.
  assert (Hexist : exist (bieter d') id = true)
    by (apply exist_true; eauto).
  assert (Hstate : state d' = state d) by reflexivity.
  clearbody d' id.
  split; [unfold Bieter; rewrite Hin; reflexivity |].
  split; [| split].
  - unfold member. simpl. unfold eventUpdate.validate. simpl.
    rewrite Hexist.
    destruct (negb a && negb (state d' =? stateRegistration)%Z); eauto.
  - intros Hgate. unfold member. simpl. unfold eventUpdate.validate. simpl.
    rewrite Hexist, Hstate.
    destruct Hgate as [-> | ->]; [reflexivity |].
    rewrite Z.eqb_refl, andb_false_r. reflexivity.
  - intros Hgate. unfold bid. simpl. unfold eventOffer.validate. simpl.
    rewrite Hexist, Hstate.
    destruct Hgate as [-> | ->]; [reflexivity |].
    rewrite Z.eqb_refl, andb_false_r. reflexivity.
Qed.

(** X5: once a Delete event for an ID has been executed, the ID is free:
    every Update and every SetOffer event for it is refused, in every phase
    and also for the admin, and a Create event for it is accepted from the
    admin and in the Registration phase. *)
Theorem free_after_delete
  (x : eventDelete.t) (d : Database) (p : RawMessage) (a : bool) (amount : Z) :
  let id := eventDelete.ID x in
  let d' := snd (execute (EvDelete x) d) in
  let member (c : bool) :=
    EvUpdate {| eventUpdate.ID := id; eventUpdate.Payload := p;
                eventUpdate.create := c; eventUpdate.asAdmin := a |} in
  let bid :=
    EvOffer {| eventOffer.ID := id; eventOffer.Offer := amount;
               eventOffer.asAdmin := a |} in
  (exists err, validate (member false) d' = (Some err, d')) /\
  (exists err, validate bid d' = (Some err, d')) /\
  ((a = true \/ state d = stateRegistration) ->
   validate (member true) d' = (None, d')).
Proof.
  intros id d' member bid.
  assert (Hexist : exist (bieter d') id = false)
    by (apply exist_false, lookup_delete_eq).
  assert (Hstate : state d' = state d) by reflexivity.
  clearbody d' id.
  split; [| split].
  - unfold member. simpl. unfold eventUpdate.validate. simpl.
    rewrite Hexist.
    destruct (negb a && negb (state d' =? stateRegistration)%Z); eauto.
  - unfold bid. simpl. unfold eventOffer.validate. simpl.
    rewrite Hexist.
    destruct (negb a && negb (state d' =? stateOffer)%Z); eauto.
  - intros Hgate. unfold member. simpl. unfold eventUpdate.validate. simpl.
    rewrite Hexist, Hstate.
    destruct Hgate as [-> | ->]; [reflexivity |].
    rewrite Z.eqb_refl, andb_false_r. reflexivity.
Qed.

End event_sequences.

(** X6: executed Create/Update events compose as writes to a map: of two
    events for the same ID the later one decides (so executing an event
    twice is executing it once), and events for different IDs can be
    executed in either order. *)
Theorem update_events_compose (u1 u2 : eventUpdate.t) (d : Database) :
  let run (u : eventUpdate.t) (x : Database) := snd (execute (EvUpdate u) x) in
  (eventUpdate.ID u1 = eventUpdate.ID u2 -> run u2 (run u1 d) = run u2 d) /\
  run u1 (run u1 d) = run u1 d /\
  (eventUpdate.ID u1 <> eventUpdate.ID u2 ->
   run u2 (run u1 d) = run u1 (run u2 d)).
Proof.
  intros run. unfold run. simpl. split; [| split].
  - intros Hid. rewrite Hid, insert_insert_eq. reflexivity.
  - rewrite insert_insert_eq. reflexivity.
  - intros Hne. f_equal. apply insert_insert_ne. congruence.
Qed.

(** X7: deleting undoes a registration: when the ID is not registered,
    executing a Create event for it and then a Delete event for it gives
    back the database as it was. A Delete event for an ID that is not
    registered changes nothing, so deleting twice is deleting once. *)
Theorem delete_undoes_create
  (u : eventUpdate.t) (x : eventDelete.t) (d : Database) :
  eventDelete.ID x = eventUpdate.ID u ->
  bieter d !! eventUpdate.ID u = None ->
  snd (execute (EvDelete x) (snd (execute (EvUpdate u) d))) = d /\
  snd (execute (EvDelete x) d) = d /\
  snd (execute (EvDelete x) (snd (execute (EvDelete x) d)))
    = snd (execute (EvDelete x) d).
Proof.
  intros Hid Hfree. simpl. rewrite Hid.
  rewrite delete_insert_id by exact Hfree.
  rewrite delete_delete_eq, delete_id by exact Hfree.
  destruct d; repeat split.
Qed.

(** X8: a ClearOffers event wipes whatever SetOffer events did before it,
    and a SetOffer event executed right after it leaves exactly one offer;
    of two SetOffer events for the same ID the later one decides. *)
Theorem offer_events_compose
  (o1 o2 : eventOffer.t) (c : eventOfferClear.t) (d : Database) :
  let set (o : eventOffer.t) (x : Database) := snd (execute (EvOffer o) x) in
  let clear (x : Database) := snd (execute (EvOfferClear c) x) in
  clear (set o1 d) = clear d /\
  clear (clear d) = clear d /\
  offer (set o1 (clear d)) = {[ eventOffer.ID o1 := eventOffer.Offer o1 ]} /\
  (eventOffer.ID o1 = eventOffer.ID o2 -> set o2 (set o1 d) = set o2 d).
Proof.
  intros set clear. unfold set, clear. simpl.
  split; [reflexivity |]. split; [reflexivity |]. split.
  - apply insert_empty.
  - intros Hid. rewrite Hid, insert_insert_eq. reflexivity.
Qed.

(** X9: every event writes to one part of the database only. Create/Update
    and Delete leave the offers, the phase and every other member; SetOffer
    leaves the members, the phase and every other offer; ClearOffers leaves
    the members and the phase; SetPhase leaves the members and the
    offers. *)
Theorem execute_frame (e : Event) (d : Database) :
  let d' := snd (execute e d) in
  match e with
  | EvUpdate u =>
      offer d' = offer d /\ state d' = state d /\
      forall k, k <> eventUpdate.ID u -> bieter d' !! k = bieter d !! k
  | EvDelete x =>
      offer d' = offer d /\ state d' = state d /\
      forall k, k <> eventDelete.ID x -> bieter d' !! k = bieter d !! k
  | EvServiceState _ => bieter d' = bieter d /\ offer d' = offer d
  | EvOffer o =>
      bieter d' = bieter d /\ state d' = state d /\
      forall k, k <> eventOffer.ID o -> offer d' !! k = offer d !! k
  | EvOfferClear _ => bieter d' = bieter d /\ state d' = state d
  end.
Proof.
  destruct e as [u | x | s | o | c]; simpl; repeat split; intros k Hk.
  - apply lookup_insert_ne. congruence.
  - apply lookup_delete_ne. congruence.
  - apply lookup_insert_ne. congruence.
Qed.

(** * What events built by the constructors keep *)

Section invariants.
Context `{GoLib}.

Lemma newEventOffer_amount (id : string) (amount : Z) (a : bool)
  (o : eventOffer.t) :
  newEventOffer id amount a = (o, None) ->
  (lowestOffer <= eventOffer.Offer o)%Z.
Proof.
  unfold newEventOffer.
  destruct (amount <? lowestOffer)%Z eqn:Hlow; [discriminate |].
  intros Hmade. injection Hmade as <-. simpl.
  apply Z.ltb_ge, Hlow.
Qed.

Lemma newEventStatus_range (v : ServiceState) (s : eventServiceState.t) :
  newEventStatus v = (s, None) ->
  (1 <= eventServiceState.NewState s <= 3)%Z.
Proof.
  unfold newEventStatus.
  destruct ((v <? 1)%Z || (v >? 3)%Z) eqn:Hout; [discriminate |].
  intros Hmade. injection Hmade as <-. simpl.
  apply orb_false_iff in Hout. destruct Hout as [Hlo Hhi].
  apply Z.ltb_ge in Hlo. rewrite Z.gtb_ltb in Hhi. apply Z.ltb_ge in Hhi.
  lia.
Qed.

Lemma newEventUpdate_payload (id : string) (p : RawMessage) (a : bool)
  (u : eventUpdate.t) :
  newEventUpdate id p a = (u, None) \/ newEventCreate id p a = (u, None) ->
  exists bs, eventUpdate.Payload u = Some bs /\ json_Valid bs = true.
Proof.
  unfold newEventCreate, newEventUpdate.
  destruct p as [bs |].
  - destruct (json_Valid bs) eqn:Hvalid; simpl.
    + intros [Hmade | Hmade]; injection Hmade as <-; simpl; eauto.
    + intros [Hmade | Hmade]; discriminate.
  - intros [Hmade | Hmade]; discriminate.
Qed.

(** X10: no offer below the minimum enters the database through the
    constructors: when every stored offer is at least [lowestOffer],
    executing any event that a constructor returned without an error leaves
    every stored offer at least [lowestOffer]. *)
Theorem offers_stay_above_minimum (e : Event) (d : Database) :
  built e ->
  offersAboveMinimum d ->
  offersAboveMinimum (snd (execute e d)).
Proof.
  intros Hbuilt Hinv k amount.
  destruct e as [u | x | s | o | c]; simpl; try apply Hinv.
  - destruct Hbuilt as (id & amount' & a & Hmade).
    apply newEventOffer_amount in Hmade.
    rewrite lookup_insert. case_decide.
    + intros Hk. injection Hk as <-. exact Hmade.
    + apply Hinv.
  - rewrite lookup_empty. discriminate.
Qed.

(** X11: the phase stays one of 1, 2, 3: when it is, executing any event
    that a constructor returned without an error leaves it in that
    range. *)
Theorem phase_stays_in_range (e : Event) (d : Database) :
  built e ->
  phaseInRange d ->
  phaseInRange (snd (execute e d)).
Proof.
  intros Hbuilt Hinv.
  destruct e as [u | x | s | o | c]; simpl; try exact Hinv.
  destruct Hbuilt as (v & Hmade).
  unfold phaseInRange. simpl. exact (newEventStatus_range v s Hmade).
Qed.

(** X12: only valid JSON is stored: when every stored payload is a non-nil
    slice that [json.Valid] accepts, executing any event that a constructor
    returned without an error leaves every stored payload so. *)
Theorem payloads_stay_valid (e : Event) (d : Database) :
  built e ->
  payloadsValid d ->
  payloadsValid (snd (execute e d)).
Proof.
  intros Hbuilt Hinv k p.
  destruct e as [u | x | s | o | c]; simpl; try apply Hinv.
  - destruct Hbuilt as (id & p' & a & Hmade).
    apply newEventUpdate_payload in Hmade.
    rewrite lookup_insert. case_decide.
    + intros Hk. injection Hk as <-. exact Hmade.
    + apply Hinv.
  - rewrite lookup_delete. case_decide; [discriminate | apply Hinv].
Qed.

End invariants.

(** * Properties of the HTTP layer *)

(** Wrapping adds no method: [errors.As] finds in a wrapped error what it
    finds in the error inside. *)
Lemma errors_As_wrapAll {A : Type} (method : goerror -> option A)
  (prefixes : list string) (err : goerror) :
  (forall prefix inner, method (errWrap prefix inner) = None) ->
  errors_As method (wrapAll prefixes err) = errors_As method err.
Proof.
  intros Hwrap. induction prefixes as [| p ps IH]; simpl; [reflexivity |].
  rewrite Hwrap. exact IH.
Qed.

Lemma handleError_of_validation
  (prefixes : list string) (v : validationError) :
  handleError (wrapAll prefixes (errValidation v))
    = ("Ungültige Daten: " ++ msg v, 400%Z).
Proof.
  unfold handleError.
  rewrite (errors_As_wrapAll forClient_method) by reflexivity.
  rewrite (errors_As_wrapAll httpStatus_method) by reflexivity.
  reflexivity.
Qed.

Lemma handleError_of_client (prefixes : list string) (c : clientError.t) :
  handleError (wrapAll prefixes (errClient c))
    = (clientError.msg c,
       if (clientError.status c =? 0)%Z then 400%Z else clientError.status c).
Proof.
  unfold handleError.
  rewrite (errors_As_wrapAll forClient_method) by reflexivity.
  rewrite (errors_As_wrapAll httpStatus_method) by reflexivity.
  reflexivity.
Qed.

Lemma handleError_of_other (prefixes : list string) (text : string) :
  handleError (wrapAll prefixes (errOther text)) = ("Interner Fehler", 500%Z).
Proof.
  unfold handleError.
  rewrite (errors_As_wrapAll forClient_method) by reflexivity.
  rewrite (errors_As_wrapAll httpStatus_method) by reflexivity.
  reflexivity.
Qed.

(** X13: an error of the client's making keeps its message and its status
    through any number of wrappings: a validation error is answered with
    status 400 and its message behind the prefix "Ungültige Daten: ", a
    [clientError] with its message and its own status, or 400 when the
    status field is 0. *)
Theorem handleError_client_facing
  (prefixes : list string) (v : validationError) (c : clientError.t) :
  handleError (wrapAll prefixes (errValidation v))
    = ("Ungültige Daten: " ++ msg v, 400%Z) /\
  handleError (wrapAll prefixes (errClient c))
    = (clientError.msg c,
       if (clientError.status c =? 0)%Z then 400%Z else clientError.status c).
Proof.
  unfold handleError.
  rewrite !(errors_As_wrapAll forClient_method) by reflexivity.
  rewrite !(errors_As_wrapAll httpStatus_method) by reflexivity.
  split; reflexivity.
Qed.

(** X14: the text of any other error never reaches the client: however it
    is wrapped and whatever texts it carries, the answer is the fixed
    message "Interner Fehler" with status 500. *)
Theorem handleError_hides_internal (prefixes : list string) (text : string) :
  handleError (wrapAll prefixes (errOther text)) = ("Interner Fehler", 500%Z).
Proof.
  unfold handleError.
  rewrite (errors_As_wrapAll forClient_method) by reflexivity.
  rewrite (errors_As_wrapAll httpStatus_method) by reflexivity.
  reflexivity.
Qed.

(** X15: a request is the admin's only when an admin password is configured
    and the first value of its [Auth] header is that password. So with an
    empty admin password nobody is admin, and a request without an [Auth]
    header is never admin. *)
Theorem isAdmin_needs_password (h : Header) (c : Config) :
  (isAdmin h c = true <->
   AdminPW c <> "" /\ exists rest, h !! "Auth" = Some (AdminPW c :: rest)) /\
  (AdminPW c = "" -> isAdmin h c = false) /\
  (h !! "Auth" = None -> isAdmin h c = false).
Proof.
  unfold isAdmin, Header_Get.
  destruct (String.eqb_spec (AdminPW c) "") as [Hempty | Hset].
  - repeat split; try discriminate; try reflexivity.
    intros [Hne _]. contradiction.
  - split; [| split].
    + destruct (h !! "Auth") as [[| v vs] |]; split.
      * intros Heq. apply String.eqb_eq in Heq. congruence.
      * intros (_ & rest & Hget). discriminate.
      * intros Heq. apply String.eqb_eq in Heq. subst v. eauto.
      * intros (_ & rest & Hget). injection Hget as -> _.
        apply String.eqb_refl.
      * intros Heq. apply String.eqb_eq in Heq. congruence.
      * intros (_ & rest & Hget). discriminate.
    + contradiction.
    + intros ->. apply String.eqb_neq. congruence.
Qed.

Section multifs_properties.
Variable File : Type.

Lemma Open_from_skips (i : nat) (pre rest : list (FS File)) (name : string) :
  Forall (missing File name) pre ->
  Open_from File i (pre ++ rest) name
    = Open_from File (i + length pre) rest name.
Proof.
  intros Hpre. revert i.
  induction Hpre as [| fs pre [detail Hfs] _ IH]; intros i; simpl.
  - f_equal. lia.
  - rewrite Hfs, IH. f_equal. lia.
Qed.

(** X16: [MultiFS.Open] returns the file of the first source that has it:
    when the sources before it report that the file does not exist, the
    file of this source is returned and the sources after it are not
    asked, whatever they would answer. *)
Theorem MultiFS_first_source_wins
  (pre post : list (FS File)) (fs : FS File) (name : string) (f : File) :
  Forall (missing File name) pre ->
  fs name = inl f ->
  MultiFS_Open File (pre ++ fs :: post) name = inl f.
Proof.
  intros Hpre Hfs. unfold MultiFS_Open.
  rewrite Open_from_skips by exact Hpre. simpl. rewrite Hfs. reflexivity.
Qed.

(** X17: an error of a source other than "does not exist" ends the search:
    when the sources before it report that the file does not exist,
    [MultiFS.Open] returns that error with the index of the source, and a
    later source that has the file is not used. *)
Theorem MultiFS_failure_stops
  (pre post : list (FS File)) (fs : FS File) (name detail : string) :
  Forall (missing File name) pre ->
  fs name = inr (fsFailure detail) ->
  MultiFS_Open File (pre ++ fs :: post) name
    = inr (errSource (length pre) (fsFailure detail)).
Proof.
  intros Hpre Hfs. unfold MultiFS_Open.
  rewrite Open_from_skips by exact Hpre. simpl. rewrite Hfs. reflexivity.
Qed.

Lemma Open_from_ErrNotExist (i : nat) (sources : list (FS File))
  (name : string) :
  Open_from File i sources name = inr ErrNotExist <->
  Forall (missing File name) sources.
Proof.
  revert i. induction sources as [| fs rest IH]; intros i; simpl.
  - split; [constructor | reflexivity].
  - destruct (fs name) as [f | [detail | detail]] eqn:Hfs.
    + split; [discriminate |].
      intros Hall. inversion Hall as [| ? ? [detail Hmiss] _]; subst.
      congruence.
    + rewrite IH. split.
      * intros Hrest. constructor; [exists detail; exact Hfs | exact Hrest].
      * intros Hall. inversion Hall; assumption.
    + split; [discriminate |].
      intros Hall. inversion Hall as [| ? ? [detail' Hmiss] _]; subst.
      congruence.
Qed.

(** X18: [MultiFS.Open] reports [os.ErrNotExist] exactly when every source
    reports that the file does not exist; in particular always when there
    is no source. *)
Theorem MultiFS_ErrNotExist_iff (sources : list (FS File)) (name : string) :
  (MultiFS_Open File sources name = inr ErrNotExist <->
   Forall (missing File name) sources) /\
  MultiFS_Open File [] name = inr ErrNotExist.
Proof.
  split; [apply Open_from_ErrNotExist | reflexivity].
Qed.

End multifs_properties.

(** X19: the contract names a pick-up point only for the values 1, 2 and 3,
    with three different names, and prints "UNGÜLTIG" for every other
    value; the payment rhythm has no such marker: it is "Jährlich" for 1
    and "Monatlich" for every other value. *)
Theorem contract_names (v w a : Z) :
  (verteilstelle_String v = "UNGÜLTIG" <-> ~ (1 <= v <= 3)%Z) /\
  ((1 <= v <= 3)%Z -> (1 <= w <= 3)%Z ->
   verteilstelle_String v = verteilstelle_String w -> v = w) /\
  (abbuchung_String a = "Jährlich" <-> a = 1%Z) /\
  (a <> 1%Z -> abbuchung_String a = "Monatlich").
Proof.
  assert (Hcases : forall x : Z,
             (1 <= x <= 3)%Z -> x = 1%Z \/ x = 2%Z \/ x = 3%Z) by (intros; lia).
  split; [| split; [| split]].
  - unfold verteilstelle_String.
    destruct (Z.eqb_spec v 1); [split; [discriminate | lia] |].
    destruct (Z.eqb_spec v 2); [split; [discriminate | lia] |].
    destruct (Z.eqb_spec v 3); [split; [discriminate | lia] |].
    split; [lia | reflexivity].
  - intros Hv Hw.
    destruct (Hcases v Hv) as [-> | [-> | ->]],
             (Hcases w Hw) as [-> | [-> | ->]];
      cbn; intros Heq; try reflexivity; discriminate Heq.
  - unfold abbuchung_String.
    destruct (Z.eqb_spec a 1); split; try discriminate; try tauto.
  - intros Hne. unfold abbuchung_String.
    destruct (Z.eqb_spec a 1); [contradiction | reflexivity].
Qed.

(** ** The further properties on concrete inputs *)

(** X2 for an offer by a member, on two databases in the Offer phase that
    register the same ID with different payloads and offers. *)
Lemma validate_reads_phase_and_ids_witness :
  let e := EvOffer {| eventOffer.ID := "17"; eventOffer.Offer := 5000;
                      eventOffer.asAdmin := false |} in
  let d2 := {| bieter := {[ "17" := bytes "null" ]}; offer := ∅;
               state := stateOffer |} in
  fst (@validate sampleLib e (sampleDatabase stateOffer))
    = fst (@validate sampleLib e d2).
Proof.
  intros e d2.
  apply (@validate_reads_phase_and_ids sampleLib e (sampleDatabase stateOffer) d2).
  - reflexivity.
  - intros k. unfold exist. simpl. rewrite !lookup_singleton.
    case_decide; reflexivity.
Defined.

(** X7 for the free ID "18" in the sample database. *)
Lemma delete_undoes_create_witness :
  let d := sampleDatabase stateRegistration in
  let u := {| eventUpdate.ID := "18"; eventUpdate.Payload := bytes "null";
              eventUpdate.create := true; eventUpdate.asAdmin := false |} in
  let x := {| eventDelete.ID := "18"; eventDelete.asAdmin := false |} in
  snd (execute (EvDelete x) (snd (execute (EvUpdate u) d))) = d.
Proof.
  intros d u x.
  assert (Hid : eventDelete.ID x = eventUpdate.ID u) by reflexivity.
  assert (Hfree : bieter d !! eventUpdate.ID u = None) by reflexivity.
  exact (proj1 (delete_undoes_create u x d Hid Hfree)).
Defined.

Lemma sampleDatabase_offers (phase : ServiceState) :
  offersAboveMinimum (sampleDatabase phase).
Proof.
  intros k amount. simpl. rewrite lookup_singleton.
  case_decide; [| discriminate].
  intros Hk. injection Hk as <-. unfold lowestOffer. lia.
Defined.

Lemma sampleDatabase_payloads (phase : ServiceState) :
  @payloadsValid sampleLib (sampleDatabase phase).
Proof.
  intros k p. simpl. rewrite lookup_singleton.
  case_decide; [| discriminate].
  intros Hk. injection Hk as <-. eexists. split; reflexivity.
Defined.

(** X10 for an offer of 4000 built by [newEventOffer]. *)
Lemma offers_stay_above_minimum_witness :
  let o := {| eventOffer.ID := "17"; eventOffer.Offer := 4000;
              eventOffer.asAdmin := false |} in
  offersAboveMinimum
    (snd (execute (EvOffer o) (sampleDatabase stateOffer))).
Proof.
  intros o.
  apply (@offers_stay_above_minimum sampleLib).
  - exists "17", 4000%Z, false. reflexivity.
  - apply sampleDatabase_offers.
Defined.

(** X11 for the phase 3 built by [newEventStatus]. *)
Lemma phase_stays_in_range_witness :
  let s := {| eventServiceState.NewState := 3 |} in
  phaseInRange
    (snd (execute (EvServiceState s) (sampleDatabase stateRegistration))).
Proof.
  intros s.
  apply (@phase_stays_in_range sampleLib).
  - exists 3%Z. reflexivity.
  - unfold phaseInRange. simpl. unfold stateRegistration. lia.
Defined.

(** X12 for a registration built by [newEventCreate]. *)
Lemma payloads_stay_valid_witness :
  let u := {| eventUpdate.ID := "18"; eventUpdate.Payload := bytes "null";
              eventUpdate.create := true; eventUpdate.asAdmin := false |} in
  @payloadsValid sampleLib
    (snd (execute (EvUpdate u) (sampleDatabase stateRegistration))).
Proof.
  intros u.
  apply (@payloads_stay_valid sampleLib).
  - exists "18", (bytes "null"), false. right. reflexivity.
  - apply sampleDatabase_payloads.
Defined.

(** X16 for the two sources of the server: a directory that has only the
    logo, before the files built into the binary. *)
Lemma MultiFS_first_source_wins_witness :
  let directory : FS string := fun name =>
    if String.eqb name "logo.png" then inl "logo of the directory"
    else inr (fsNotExist name) in
  let builtin : FS string := fun name => inl "built-in file" in
  MultiFS_Open string [directory; builtin] "index.css" = inl "built-in file" /\
  MultiFS_Open string [directory; builtin] "logo.png"
    = inl "logo of the directory".
Proof.
  intros directory builtin. split.
  - apply (MultiFS_first_source_wins string [directory] [] builtin).
    + constructor; [exists "index.css"; reflexivity | constructor].
    + reflexivity.
  - apply (MultiFS_first_source_wins string [] [builtin] directory).
    + constructor.
    + reflexivity.
Defined.

(** X17 for a source that cannot be read, between a source without the file
    and one that has it. *)
Lemma MultiFS_failure_stops_witness :
  let empty : FS string := fun name => inr (fsNotExist name) in
  let broken : FS string := fun name => inr (fsFailure "permission denied") in
  let builtin : FS string := fun name => inl "built-in file" in
  MultiFS_Open string [empty; broken; builtin] "index.css"
    = inr (errSource 1 (fsFailure "permission denied")).
Proof.
  intros empty broken builtin.
  apply (MultiFS_failure_stops string [empty] [builtin] broken).
  - constructor; [exists "index.css"; reflexivity | constructor].
  - reflexivity.
Defined.

(** * Properties of the handlers *)

Section handler_properties.
Context `{GoLib}.
Variable DB : Type.
Variable db_Bieter : DB -> string -> RawMessage * bool.
Variable db_DeleteBieter : string -> bool -> DB -> option goerror * DB.
Variable db_SetState : list Byte.byte -> DB -> option goerror * DB.
Variable db_State : DB -> ServiceState.

(** X20: only the admin changes the phase. A PUT on the phase from a
    request that is not the admin's is answered with status 403 and "not
    allowed", and the database is not touched, whatever the body is; so it
    is for every request when no admin password is configured. A GET
    answers with the phase and its name for everybody and leaves the
    database as it is. *)
Theorem handleState_requires_admin
  (config : Config) (h : Header) (body : list Byte.byte) (store : DB) :
  (isAdmin h config = false ->
   handleState DB db_SetState db_State config "PUT" h body store
     = (respError "not allowed" 403, store)) /\
  (AdminPW config = "" ->
   handleState DB db_SetState db_State config "PUT" h body store
     = (respError "not allowed" 403, store)) /\
  handleState DB db_SetState db_State config "GET" h body store
    = (respState (db_State store) (ServiceState_String (db_State store)),
       store).
Proof.
  assert (Hrefused : isAdmin h config = false ->
            handleState DB db_SetState db_State config "PUT" h body store
            = (respError "not allowed" 403, store)).
  { intros Hno. unfold handleState. simpl. rewrite Hno. reflexivity. }
  split; [exact Hrefused |]. split; [| reflexivity].
  intros Hempty. apply Hrefused. unfold isAdmin. rewrite Hempty. reflexivity.
Qed.

(** X21: deleting a member that the database does not know is answered with
    status 404 and "Bieter existiert nicht", for the admin too, and the
    database is not touched. For a known member the answer follows the
    error of the deletion: none gives an empty answer, and an error is
    handed to [handleError] wrapped once more. So a validation error
    (wrapped or not) gives status 400 with its message behind "Ungültige
    Daten: ", a [clientError] (wrapped or not) its own message with its own
    status, or 400 when its status field is 0, and an error that is
    neither of the two status 500 with "Interner Fehler". *)
Theorem handleBieter_DELETE_answers
  (config : Config) (id : string) (h : Header) (store store' : DB)
  (prefixes : list string) (v : validationError) (c : clientError.t)
  (text : string) :
  let delete := handleBieter_DELETE DB db_Bieter db_DeleteBieter in
  let deleted := db_DeleteBieter id (isAdmin h config) store in
  (snd (db_Bieter store id) = false ->
   delete config id h store = (respError "Bieter existiert nicht" 404, store)) /\
  (snd (db_Bieter store id) = true ->
   (deleted = (None, store') ->
    delete config id h store = (respNothing, store')) /\
   (forall err : goerror,
       deleted = (Some err, store') ->
       delete config id h store
         = (respond (handleError
                       (errWrap ("deleting bieter " ++ fmt_q id ++ ": ") err)),
            store')) /\
   (deleted = (Some (wrapAll prefixes (errValidation v)), store') ->
    delete config id h store
      = (respError ("Ungültige Daten: " ++ msg v) 400, store')) /\
   (deleted = (Some (wrapAll prefixes (errClient c)), store') ->
    delete config id h store
      = (respError (clientError.msg c)
           (if (clientError.status c =? 0)%Z then 400%Z
            else clientError.status c),
         store')) /\
   (deleted = (Some (wrapAll prefixes (errOther text)), store') ->
    delete config id h store = (respError "Interner Fehler" 500, store'))).
Proof.
  intros delete deleted. unfold delete, deleted, handleBieter_DELETE.
  destruct (db_Bieter store id) as [payload known]; simpl.
  split.
  - intros ->. reflexivity.
  - intros ->. simpl.
    split; [| split; [| split; [| split]]].
    + intros Hdel. rewrite Hdel. reflexivity.
    + intros err Hdel. rewrite Hdel. reflexivity.
    + intros Hdel. rewrite Hdel.
      change (errWrap ?p (wrapAll prefixes ?e)) with (wrapAll (p :: prefixes) e).
      rewrite handleError_of_validation. reflexivity.
    + intros Hdel. rewrite Hdel.
      change (errWrap ?p (wrapAll prefixes ?e)) with (wrapAll (p :: prefixes) e).
      rewrite handleError_of_client. reflexivity.
    + intros Hdel. rewrite Hdel.
      change (errWrap ?p (wrapAll prefixes ?e)) with (wrapAll (p :: prefixes) e).
      rewrite handleError_of_other. reflexivity.
Qed.

End handler_properties.
